(** * nsupdate.info: the dyndns2 update API (nsupdate/api/views.py)

    A shallow embedding of the request handlers of [nsupdate/api/views.py]
    and of the update dispatcher [_update], with the properties of the
    handlers' outcome mapping.

    The module is Python 2 / Django code.  Its collaborators (the host
    directory [Host.filter_by_fqdn] and [Host.poke], the hasher
    [check_password], the classifier [check_ip], the DNS primitive
    [update], the base64 codec and [settings.BAD_AGENTS]) live outside the
    file; they are the fields of the record [Env], and every theorem is
    stated for an arbitrary [Env].  A handler is a computation in a small
    state-and-exception monad whose state is the external world together
    with the trace of the calls made to the collaborators. *)

From Stdlib Require Import String Ascii List Arith Lia.
From stdpp Require Import base option list strings gmap.
Import ListNotations.

Local Open Scope string_scope.
Local Open Scope list_scope.

(** ** Python strings *)

Module PyString.

(** [s.split(sep, 1)]: a one-element list when [sep] does not occur,
    else the text before and the text after its first occurrence. *)
Fixpoint split_once (sep : ascii) (s : string) : option (string * string) :=
  match s with
  | EmptyString => None
  | String c rest =>
      if Ascii.eqb c sep then Some (EmptyString, rest)
      else match split_once sep rest with
           | Some (a, b) => Some (String c a, b)
           | None => None
           end
  end.

Definition split1 (sep : ascii) (s : string) : list string :=
  match split_once sep s with
  | Some (a, b) => [a; b]
  | None => [s]
  end.

(** [s.lower()] on a byte string: the ASCII letters A..Z are mapped. *)
Definition lower_char (c : ascii) : ascii :=
  let n := nat_of_ascii c in
  if ((65 <=? n) && (n <=? 90))%nat then ascii_of_nat (n + 32) else c.

Fixpoint lower (s : string) : string :=
  match s with
  | EmptyString => EmptyString
  | String c rest => String (lower_char c) (lower rest)
  end.

(** [s.strip()]: the whitespace of [string.whitespace] is removed at both
    ends (tab, line feed, vertical tab, form feed, carriage return,
    space). *)
Definition is_whitespace (c : ascii) : bool :=
  let n := nat_of_ascii c in
  (((9 <=? n) && (n <=? 13)) || (n =? 32))%nat.

Fixpoint lstrip (s : string) : string :=
  match s with
  | EmptyString => EmptyString
  | String c rest => if is_whitespace c then lstrip rest else s
  end.

Fixpoint rstrip (s : string) : string :=
  match s with
  | EmptyString => EmptyString
  | String c rest =>
      match rstrip rest with
      | EmptyString => if is_whitespace c then EmptyString else String c EmptyString
      | r => String c r
      end
  end.

Definition strip (s : string) : string := rstrip (lstrip s).

(** A character of a [unicode] object that the default (ascii) codec can
    encode. *)
Definition is_ascii7 (c : ascii) : bool := (nat_of_ascii c <? 128)%nat.

Fixpoint all_ascii7 (s : string) : bool :=
  match s with
  | EmptyString => true
  | String c rest => is_ascii7 c && all_ascii7 rest
  end.

(** The double quote, for the text of the challenge header. *)
Definition dquote : string := String (ascii_of_nat 34) EmptyString.

End PyString.

(** ** Data model *)

(** The address families, the keys [('ipv4', 'ipv6')] handed to [check_ip]. *)
Inductive kind : Type := ipv4 | ipv6.

(** A Django user, as far as the views look at it. *)
Record User : Type := { username : string }.

(** A row of the [Host] model, as far as the views look at it. *)
Record Host : Type := {
  fqdn : string;
  created_by : User;
  update_secret : string
}.

(** The values an address variable holds: [None], a byte string (the WSGI
    environment) or a [unicode] object (a query parameter).  A [unicode]
    object is given by its code points below 256. *)
Inductive pyval : Type :=
| PyNone
| PyStr (s : string)
| PyUnicode (s : string).

Inductive exception : Type :=
| SameIpError
| InvalidIPError
| ValueError
| TypeError
| IndexError
| UnicodeEncodeError
| UnicodeDecodeError
| binascii_Error
| OtherError (name : string).

Inductive result (A : Type) : Type :=
| Return (a : A)
| Raise (e : exception).
Arguments Return {A} a.
Arguments Raise {A} e.

(** [django.http.HttpResponse]: body, content type, status and the headers
    set through [response[name] = value]. *)
Record HttpResponse : Type := {
  content : string;
  content_type : string;
  status_code : nat;
  headers : gmap string string
}.

(** What a view hands back to the framework: [_update] returns either the
    Python value [False] or a response object. *)
Inductive retval : Type :=
| PyFalse
| PyResponse (r : HttpResponse).

(** [django.http.HttpRequest]: the query parameters (a [QueryDict], several
    values per key), the WSGI environment and the logged-in user. *)
Record HttpRequest : Type := {
  GET : list (string * string);
  META : gmap string string;
  user : User
}.

(** [QueryDict.get(key)]: the last value given for [key], [None] without
    one. *)
Fixpoint QueryDict_get (q : list (string * string)) (key : string) : option string :=
  match q with
  | [] => None
  | (k, v) :: q' =>
      match QueryDict_get q' key with
      | Some v' => Some v'
      | None => if String.eqb k key then Some v else None
      end
  end.

(** [request.META.get('HTTP_USER_AGENT', 'unknown')]. *)
Definition HTTP_USER_AGENT (request : HttpRequest) : string :=
  default "unknown" (request.(META) !! "HTTP_USER_AGENT").

(** [request.META.get('REMOTE_ADDR')]: a byte string of the WSGI
    environment, or [None]. *)
Definition REMOTE_ADDR (request : HttpRequest) : pyval :=
  match request.(META) !! "REMOTE_ADDR" with
  | None => PyNone
  | Some a => PyStr a
  end.

(** ** Collaborators and the trace of their calls *)

Inductive level : Type := ERROR | WARNING | INFO | DEBUG.

(** One entry per call to the directory, the classifier or the DNS
    primitive and per log line, in program order. *)
Inductive event : Type :=
| CallFilter (fqdn : string) (owner : option User)
| CallCheckIp (ipaddr : string)
| CallPoke (h : Host) (k : kind)
| CallUpdate (hostname ipaddr : string)
| Log (lvl : level) (msg : string).

(** The code outside [views.py], over a world [W] (the host table and the
    DNS zone):
    - [env_filter_by_fqdn w fqdn owner] is [Host.filter_by_fqdn(fqdn)] and,
      with an owner, [Host.filter_by_fqdn(fqdn, created_by=owner)];
    - [env_check_password password hash] is Django's [check_password];
    - [env_check_ip ipaddr] is [check_ip(ipaddr, ('ipv4', 'ipv6'))], [None]
      when it raises [InvalidIPError];
    - [env_poke h k] is [h.poke(k)];
    - [env_update hostname ipaddr] is [dnstools.update], which may raise
      [SameIpError] or anything else;
    - [env_b64decode s] is [s.decode('base64')], [None] when the codec
      raises [binascii.Error];
    - [env_BAD_AGENTS] is [settings.BAD_AGENTS]. *)
Record Env (W : Type) : Type := {
  env_filter_by_fqdn : W -> string -> option User -> list Host;
  env_check_password : string -> string -> bool;
  env_check_ip : string -> option kind;
  env_poke : Host -> kind -> W -> W;
  env_update : string -> string -> W -> result unit * W;
  env_b64decode : string -> option string;
  env_BAD_AGENTS : list string
}.
Arguments env_filter_by_fqdn {W} _ _ _ _.
Arguments env_check_password {W} _ _ _.
Arguments env_check_ip {W} _ _.
Arguments env_poke {W} _ _ _ _.
Arguments env_update {W} _ _ _ _.
Arguments env_b64decode {W} _ _.
Arguments env_BAD_AGENTS {W} _.

(** ** The monad of the handlers

    A computation reads and changes the world, emits events and either
    returns or raises.  What was done before an exception stays done. *)
Definition M (W A : Type) : Type := W -> result A * W * list event.

Global Instance M_ret {W} : MRet (M W) :=
  fun A (a : A) w => (Return a, w, []).

Global Instance M_bind {W} : MBind (M W) :=
  fun A B (f : A -> M W B) (m : M W A) w =>
    match m w with
    | (Return a, w1, t1) =>
        match f a w1 with
        | (r, w2, t2) => (r, w2, t1 ++ t2)
        end
    | (Raise e, w1, t1) => (Raise e, w1, t1)
    end.

Definition raise {W A} (e : exception) : M W A :=
  fun w => (Raise e, w, []).

(** A computation that only returns or raises. *)
Definition lift {W A} (r : result A) : M W A :=
  fun w => (r, w, []).

Definition emit {W} (ev : event) : M W unit :=
  fun w => (Return tt, w, [ev]).

(** [try: m except ...]: the outcome of [m] as a value. *)
Definition try_except {W A} (m : M W A) : M W (result A) :=
  fun w => match m w with (r, w1, t1) => (Return r, w1, t1) end.

Definition outcome {W A} (x : result A * W * list event) : result A := x.1.1.
Definition final {W A} (x : result A * W * list event) : W := x.1.2.
Definition trace {W A} (x : result A * W * list event) : list event := x.2.

(** ** Python built-ins the views use *)

(** [str(x)]: ["None"] for [None], the identity on a byte string, and the
    ascii encoding of a [unicode] object, which raises on a code point
    above 127. *)
Definition str (x : pyval) : result string :=
  match x with
  | PyNone => Return "None"
  | PyStr s => Return s
  | PyUnicode s => if PyString.all_ascii7 s then Return s else Raise UnicodeEncodeError
  end.

(** A text: a byte string (a value of the WSGI environment, a decoded
    credential) or a [unicode] object (a query parameter). *)
Inductive pytext : Type :=
| Bytes (s : string)
| Unicode (s : string).

Definition text (t : pytext) : string :=
  match t with
  | Bytes s => s
  | Unicode s => s
  end.

Definition as_value (t : pytext) : pyval :=
  match t with
  | Bytes s => PyStr s
  | Unicode s => PyUnicode s
  end.

(** A query parameter as a value: [None] or a [unicode] object. *)
Definition parameter (x : option string) : pyval :=
  match x with
  | None => PyNone
  | Some v => PyUnicode v
  end.

(** [fmt % (a, b, ...)] for a byte-string format whose conversions are all
    [%s]: the literal parts of the format (ASCII text) and the arguments,
    in order. *)
Inductive piece : Type :=
| Lit (s : string)
| Arg (v : pyval).

Definition is_unicode (p : piece) : bool :=
  match p with
  | Arg (PyUnicode _) => true
  | _ => false
  end.

(** A part that the ascii codec decodes: anything but a byte string with a
    byte above 127. *)
Definition decodes (p : piece) : bool :=
  match p with
  | Arg (PyStr s) => PyString.all_ascii7 s
  | _ => true
  end.

Definition piece_text (p : piece) : string :=
  match p with
  | Lit s => s
  | Arg PyNone => "None"
  | Arg (PyStr s) => s
  | Arg (PyUnicode s) => s
  end.

(** Without a [unicode] argument the result is the byte string of the
    parts.  With one, the result is a [unicode] object, and every byte
    string among the arguments is decoded with the ascii codec on the way:
    a byte above 127 raises [UnicodeDecodeError]. *)
Definition percent (parts : list piece) : result string :=
  if existsb is_unicode parts && negb (forallb decodes parts)
  then Raise UnicodeDecodeError
  else Return (String.concat "" (map piece_text parts)).

(** [a, b = l]: [ValueError] unless [l] has two elements. *)
Definition unpack2 {W} (l : list string) : M W (string * string) :=
  match l with
  | [a; b] => mret (a, b)
  | _ => raise ValueError
  end.

(** [a, b = x] where [x] is a pair or [None]: [None] is not iterable. *)
Definition unpack_pair {W} (x : option (string * string)) : M W (string * string) :=
  match x with
  | Some p => mret p
  | None => raise TypeError
  end.

(** [l[i]]. *)
Definition getitem {W A} (l : list A) (i : nat) : M W A :=
  match l !! i with
  | Some a => mret a
  | None => raise IndexError
  end.

(** [x in l] for strings. *)
Definition py_in (x : string) (l : list string) : bool :=
  existsb (String.eqb x) l.

(** ** views.py *)

(** [Response(content)]: a [text/plain] response, status 200. *)
Definition Response (content : string) : HttpResponse :=
  {| content := content; content_type := "text/plain";
     status_code := 200; headers := ∅ |}.

(** [response[name] = value]. *)
Definition setitem (response : HttpResponse) (name value : string) : HttpResponse :=
  {| content := response.(content);
     content_type := response.(content_type);
     status_code := response.(status_code);
     headers := <[name := value]> response.(headers) |}.

(** [response.status_code = code]. *)
Definition set_status_code (response : HttpResponse) (code : nat) : HttpResponse :=
  {| content := response.(content);
     content_type := response.(content_type);
     status_code := code;
     headers := response.(headers) |}.

(** [basic_challenge(realm, content)]: the 401 response that asks for http
    basic auth. *)
Definition basic_challenge (realm content : string) : HttpResponse :=
  let response := Response content in
  let response :=
    setitem response "WWW-Authenticate"
      ("Basic realm=" +:+ PyString.dquote +:+ realm +:+ PyString.dquote) in
  let response := set_status_code response 401 in
  response.

Section Views.

Context {W : Type} (E : Env W).

(** *** Calls to the collaborators *)

Definition filter_by_fqdn (fqdn : string) (owner : option User) : M W (list Host) :=
  fun w => (Return (env_filter_by_fqdn E w fqdn owner), w, [CallFilter fqdn owner]).

Definition check_password (password password_hash : string) : M W bool :=
  mret (env_check_password E password password_hash).

Definition check_ip (ipaddr : string) : M W kind :=
  fun w =>
    match env_check_ip E ipaddr with
    | Some k => (Return k, w, [CallCheckIp ipaddr])
    | None => (Raise InvalidIPError, w, [CallCheckIp ipaddr])
    end.

Definition poke (h : Host) (k : kind) : M W unit :=
  fun w => (Return tt, env_poke E h k w, [CallPoke h k]).

Definition update (hostname ipaddr : string) : M W unit :=
  fun w =>
    match env_update E hostname ipaddr w with
    | (r, w1) => (r, w1, [CallUpdate hostname ipaddr])
    end.

Definition decode_base64 (s : string) : M W string :=
  match env_b64decode E s with
  | Some d => mret d
  | None => raise binascii_Error
  end.

Definition log (lvl : level) (msg : string) : M W unit := emit (Log lvl msg).

(** *** basic_authenticate *)

Definition basic_authenticate (auth : string) : M W (option (string * string)) :=
  '(authmeth, auth) ← unpack2 (PyString.split1 " " auth);
  if negb (String.eqb (PyString.lower authmeth) "basic") then mret None
  else
    auth ← decode_base64 (PyString.strip auth);
    '(username, password) ← unpack2 (PyString.split1 ":" auth);
    mret (Some (username, password)).

(** *** check_api_auth *)

Definition check_api_auth (username password : string) : M W bool :=
  let fqdn := username in
  hosts ← filter_by_fqdn fqdn None;
  let num_hosts := length hosts in
  if (num_hosts =? 0)%nat then mret false
  else if (1 <? num_hosts)%nat then
    log ERROR ("fqdn " +:+ fqdn +:+ " has multiple entries");;
    mret false
  else
    host ← getitem hosts 0;
    let password_hash := host.(update_secret) in
    check_password password password_hash.

(** *** check_session_auth *)

Definition check_session_auth (user : User) (hostname : string) : M W bool :=
  let fqdn := hostname in
  hosts ← filter_by_fqdn fqdn (Some user);
  let num_hosts := length hosts in
  if (num_hosts =? 0)%nat then mret false
  else if (1 <? num_hosts)%nat then
    log ERROR ("fqdn " +:+ fqdn +:+ " has multiple entries");;
    mret false
  else mret true.

(** *** _update *)

Definition _update (hostname : pytext) (ipaddr : pyval) (agent : string) : M W retval :=
  ipaddr ← lift (str ipaddr);
  hosts ← filter_by_fqdn (text hostname) None;
  let num_hosts := length hosts in
  if (num_hosts =? 0)%nat then mret PyFalse
  else if (1 <? num_hosts)%nat then
    log ERROR ("fqdn " +:+ text hostname +:+ " has multiple entries");;
    mret PyFalse
  else
    kind ← check_ip ipaddr;
    host ← getitem hosts 0;
    poke host kind;;
    r ← try_except (update (text hostname) ipaddr);
    match r with
    | Return _ =>
        msg ← lift (percent [Arg (as_value hostname);
                             Lit " - received good update -> ip: "; Arg (PyStr ipaddr);
                             Lit " [ua: "; Arg (PyStr agent); Lit "]"]);
        log INFO msg;;
        mret (PyResponse (Response ("good " +:+ ipaddr)))
    | Raise SameIpError =>
        msg ← lift (percent [Arg (as_value hostname);
                             Lit " - received no-change update, ip: "; Arg (PyStr ipaddr);
                             Lit " [ua: "; Arg (PyStr agent); Lit "]"]);
        log WARNING msg;;
        mret (PyResponse (Response ("nochg " +:+ ipaddr)))
    | Raise e => raise e
    end.

(** *** NicUpdateView *)

Definition NicUpdateView (request : HttpRequest) : M W retval :=
  let hostname := QueryDict_get request.(GET) "hostname" in
  let agent := HTTP_USER_AGENT request in
  let auth := request.(META) !! "HTTP_AUTHORIZATION" in
  match auth with
  | None =>
      msg ← lift (percent [Arg (parameter hostname); Lit " - received no auth [ua: ";
                           Arg (PyStr agent); Lit "]"]);
      log WARNING msg;;
      mret (PyResponse (basic_challenge "authenticate to update DNS" "noauth"))
  | Some auth =>
      credentials ← basic_authenticate auth;
      '(username, password) ← unpack_pair credentials;
      ok ← check_api_auth username password;
      if negb ok then
        msg ← lift (percent [Arg (parameter hostname);
                             Lit " - received bad credentials, username: ";
                             Arg (PyStr username); Lit " [ua: "; Arg (PyStr agent);
                             Lit "]"]);
        log INFO msg;;
        mret (PyResponse (basic_challenge "authenticate to update DNS" "badauth"))
      else
        let hostname := match hostname with
                        | None => Bytes username
                        | Some h => Unicode h
                        end in
        let ipaddr := match QueryDict_get request.(GET) "myip" with
                      | None => REMOTE_ADDR request
                      | Some v => PyUnicode v
                      end in
        if py_in agent (env_BAD_AGENTS E) then
          msg ← lift (percent [Arg (as_value hostname);
                               Lit " - received update from bad user agent [ua: ";
                               Arg (PyStr agent); Lit "]"]);
          log INFO msg;;
          mret (PyResponse (Response "badagent"))
        else _update hostname ipaddr agent
  end.

(** *** AuthorizedNicUpdateView

    The decorator [login_required] has let the request through:
    [request.user] is a logged-in user.  The host name and the user name
    of the log line are both [unicode] objects: formatting them does not
    raise. *)

Definition AuthorizedNicUpdateView (request : HttpRequest) : M W retval :=
  let agent := HTTP_USER_AGENT request in
  match QueryDict_get request.(GET) "hostname" with
  | None => mret (PyResponse (Response "nohost"))
  | Some hostname =>
      owned ← check_session_auth request.(user) hostname;
      if negb owned then
        log INFO (hostname +:+ " - is not owned by user: "
                  +:+ request.(user).(username));;
        mret (PyResponse (Response "nohost"))
      else
        let ipaddr := match QueryDict_get request.(GET) "myip" with
                      | None | Some "" => REMOTE_ADDR request
                      | Some v => PyUnicode v
                      end in
        _update (Unicode hostname) ipaddr agent
  end.

End Views.

(** ** A concrete world

    An instance of [Env] to run the views on: a host table, a zone and
    executable stand-ins for the library calls.  The theorems below do not
    depend on it; it provides the inputs of the worked examples. *)

Module Demo.

(** *** The base64 codec, after [binascii.a2b_base64] *)

Definition b64_value (c : ascii) : option nat :=
  let n := nat_of_ascii c in
  if ((65 <=? n) && (n <=? 90))%nat then Some (n - 65)
  else if ((97 <=? n) && (n <=? 122))%nat then Some (n - 71)
  else if ((48 <=? n) && (n <=? 57))%nat then Some (n + 4)
  else if (n =? 43)%nat then Some 62
  else if (n =? 47)%nat then Some 63
  else None.

Definition is_pad (c : ascii) : bool := (nat_of_ascii c =? 61)%nat.

(** The [num]-th (from 0) character of [s] that belongs to the alphabet,
    the pad character included. *)
Fixpoint find_valid (s : string) (num : nat) : option ascii :=
  match s with
  | EmptyString => None
  | String c rest =>
      if is_pad c || bool_decide (is_Some (b64_value c)) then
        match num with
        | O => Some c
        | S num' => find_valid rest num'
        end
      else find_valid rest num
  end.

(** The decoding loop: characters outside the alphabet are skipped, six
    bits are shifted in per character and a byte is written as soon as
    eight are there.  The result is the number of bits left over and the
    bytes written, last first. *)
Fixpoint a2b_loop (s : string) (quad_pos leftchar leftbits : nat) (out : list ascii)
  : nat * list ascii :=
  match s with
  | EmptyString => (leftbits, out)
  | String c rest =>
      if is_pad c then
        if ((quad_pos <? 2)%nat
            || ((quad_pos =? 2)%nat
                && negb (bool_decide (find_valid s 1 = Some c)))) then
          a2b_loop rest quad_pos leftchar leftbits out
        else (O, out)
      else
        match b64_value c with
        | None => a2b_loop rest quad_pos leftchar leftbits out
        | Some v =>
            let quad_pos := ((quad_pos + 1) mod 4)%nat in
            let leftchar := (leftchar * 64 + v)%nat in
            let leftbits := (leftbits + 6)%nat in
            if (8 <=? leftbits)%nat then
              let leftbits := (leftbits - 8)%nat in
              a2b_loop rest quad_pos (leftchar mod 2 ^ leftbits)%nat leftbits
                (ascii_of_nat ((leftchar / 2 ^ leftbits) mod 256) :: out)
            else a2b_loop rest quad_pos leftchar leftbits out
        end
  end.

Definition a2b_base64 (s : string) : option string :=
  match a2b_loop s 0 0 0 [] with
  | (O, out) => Some (string_of_list_ascii (rev out))
  | _ => None
  end.

(** *** The classifier: dotted quads and colon-separated hex groups *)

Fixpoint split_all (sep : ascii) (s : string) : list string :=
  match s with
  | EmptyString => [EmptyString]
  | String c rest =>
      if Ascii.eqb c sep then EmptyString :: split_all sep rest
      else match split_all sep rest with
           | [] => [String c EmptyString]
           | g :: gs => String c g :: gs
           end
  end.

Definition is_digit (c : ascii) : bool :=
  let n := nat_of_ascii c in ((48 <=? n) && (n <=? 57))%nat.

Definition is_hex (c : ascii) : bool :=
  let n := nat_of_ascii c in
  is_digit c || ((97 <=? n) && (n <=? 102))%nat || ((65 <=? n) && (n <=? 70))%nat.

Fixpoint decimal (s : string) (acc : nat) : nat :=
  match s with
  | EmptyString => acc
  | String c rest => decimal rest (10 * acc + (nat_of_ascii c - 48))
  end.

Definition is_octet (s : string) : bool :=
  let l := list_ascii_of_string s in
  if ((1 <=? length l) && (length l <=? 3))%nat && forallb is_digit l
  then (decimal s 0 <=? 255)%nat
  else false.

Definition is_ipv4 (s : string) : bool :=
  let parts := split_all "." s in
  (length parts =? 4)%nat && forallb is_octet parts.

Definition is_group (s : string) : bool :=
  let l := list_ascii_of_string s in
  (length l <=? 4)%nat && forallb is_hex l.

Definition is_empty (s : string) : bool := String.eqb s "".

(** A run of [::] is allowed once, at either end or inside. *)
Fixpoint gaps (groups : list string) : nat :=
  match groups with
  | a :: ((b :: _) as rest) =>
      (if is_empty a && is_empty b then 1 else 0) + gaps rest
  | _ => 0
  end.

Definition is_ipv6 (s : string) : bool :=
  let groups := split_all ":" s in
  let full := filter (fun g => negb (is_empty g)) groups in
  let inner := match groups with
               | a :: b :: rest => if is_empty a && is_empty b then b :: rest else groups
               | _ => groups
               end in
  let inner := match rev inner with
               | a :: b :: rest => if is_empty a && is_empty b then rev (b :: rest) else inner
               | _ => inner
               end in
  forallb is_group groups
  && (if (length (filter is_empty inner) =? 0)%nat
      then (length groups =? 8)%nat
      else (length (filter is_empty inner) =? 1)%nat && (length full <=? 7)%nat
           && (3 <=? length groups)%nat).

Definition classify (s : string) : option kind :=
  if is_ipv4 s then Some ipv4
  else if is_ipv6 s then Some ipv6
  else None.

(** *** The world: host table, confirmations and zone *)

Record world : Type := {
  table : list Host;
  confirmed : list (string * kind);
  zone : gmap string string
}.

Definition lookup_hosts (w : world) (name : string) (owner : option User) : list Host :=
  filter (fun h =>
            String.eqb h.(fqdn) name
            && match owner with
               | None => true
               | Some u => String.eqb h.(created_by).(username) u.(username)
               end)
         w.(table).

(** The stored secret is the password behind a fixed prefix. *)
Definition verify (password password_hash : string) : bool :=
  String.eqb ("plain$" +:+ password) password_hash.

Definition confirm (h : Host) (k : kind) (w : world) : world :=
  {| table := w.(table);
     confirmed := w.(confirmed) ++ [(h.(fqdn), k)];
     zone := w.(zone) |}.

(** The zone keeps one address per name; writing the address that is
    already there raises [SameIpError]. *)
Definition write (hostname ipaddr : string) (w : world) : result unit * world :=
  if bool_decide (w.(zone) !! hostname = Some ipaddr) then (Raise SameIpError, w)
  else (Return tt,
        {| table := w.(table);
           confirmed := w.(confirmed);
           zone := <[hostname := ipaddr]> w.(zone) |}).

Definition env : Env world :=
  {| env_filter_by_fqdn := lookup_hosts;
     env_check_password := verify;
     env_check_ip := classify;
     env_poke := confirm;
     env_update := write;
     env_b64decode := a2b_base64;
     env_BAD_AGENTS := ["BadBot/1.0"] |}.

Definition alice : User := {| username := "alice" |}.
Definition bob : User := {| username := "bob" |}.

Definition foo : Host :=
  {| fqdn := "foo.example.com"; created_by := alice; update_secret := "plain$s3cr3t" |}.
Definition dup_a : Host :=
  {| fqdn := "dup.example.com"; created_by := alice; update_secret := "plain$pw" |}.
Definition dup_b : Host :=
  {| fqdn := "dup.example.com"; created_by := bob; update_secret := "plain$pw" |}.

Definition w0 : world :=
  {| table := [foo; dup_a; dup_b]; confirmed := []; zone := ∅ |}.

(** A request: query parameters, user agent, [Authorization] header and
    connection address. *)
Definition request (query : list (string * string)) (agent auth : option string)
           (remote : string) (u : User) : HttpRequest :=
  let meta : gmap string string := {[ "REMOTE_ADDR" := remote ]} in
  let meta := match agent with
              | Some a => <["HTTP_USER_AGENT" := a]> meta
              | None => meta
              end in
  let meta := match auth with
              | Some a => <["HTTP_AUTHORIZATION" := a]> meta
              | None => meta
              end in
  {| GET := query; META := meta; user := u |}.

Definition foo_s3cr3t : string := "Basic Zm9vLmV4YW1wbGUuY29tOnMzY3IzdA==".
Definition foo_wrong : string := "Basic Zm9vLmV4YW1wbGUuY29tOndyb25n".

(** The scenario of the protocol: [foo.example.com:s3cr3t] sets
    [myip=203.0.113.5]. *)
Definition req_good : HttpRequest :=
  request [("myip", "203.0.113.5")] (Some "ddclient") (Some foo_s3cr3t)
    "198.51.100.7" alice.

(** The world after that update went through. *)
Definition w1 : world :=
  {| table := w0.(table);
     confirmed := [("foo.example.com", ipv4)];
     zone := {[ "foo.example.com" := "203.0.113.5" ]} |}.

Definition req_noauth : HttpRequest :=
  request [("myip", "203.0.113.5")] (Some "ddclient") None "198.51.100.7" alice.

Definition req_badauth : HttpRequest :=
  request [("myip", "203.0.113.5")] (Some "ddclient") (Some foo_wrong)
    "198.51.100.7" alice.

Definition req_badagent : HttpRequest :=
  request [("myip", "203.0.113.5")] (Some "BadBot/1.0") (Some foo_s3cr3t)
    "198.51.100.7" alice.

Definition req_badagent_noauth : HttpRequest :=
  request [("myip", "203.0.113.5")] (Some "BadBot/1.0") None "198.51.100.7" alice.

Definition req_badagent_badauth : HttpRequest :=
  request [("myip", "203.0.113.5")] (Some "BadBot/1.0") (Some foo_wrong)
    "198.51.100.7" alice.

(** Valid credentials of [foo.example.com], sent with the name of a host
    that is not registered, and with one that is registered twice. *)
Definition req_unregistered : HttpRequest :=
  request [("hostname", "bar.example.com"); ("myip", "203.0.113.5")]
    (Some "ddclient") (Some foo_s3cr3t) "198.51.100.7" alice.

Definition req_duplicate : HttpRequest :=
  request [("hostname", "dup.example.com"); ("myip", "203.0.113.5")]
    (Some "ddclient") (Some foo_s3cr3t) "198.51.100.7" alice.

(** Headers that do not decode: another scheme, a payload whose padding
    is wrong, a payload without a colon ([Zm9v] is [foo]). *)
Definition req_digest : HttpRequest :=
  request [] (Some "ddclient") (Some "Digest Zm9v") "198.51.100.7" alice.

Definition req_badpadding : HttpRequest :=
  request [] (Some "ddclient") (Some "Basic Zm9") "198.51.100.7" alice.

Definition req_nocolon : HttpRequest :=
  request [] (Some "ddclient") (Some "Basic Zm9v") "198.51.100.7" alice.




Definition req_session_empty_myip : HttpRequest :=
  request [("hostname", "foo.example.com"); ("myip", "")]
    (Some "Mozilla/5.0") None "198.51.100.7" alice.

Definition req_session_duplicate : HttpRequest :=
  request [("hostname", "dup.example.com"); ("myip", "203.0.113.5")]
    (Some "Mozilla/5.0") None "198.51.100.7" alice.

End Demo.

(** ** Requests with bytes above 127 *)

Module DemoNonAscii.

(** A user agent that starts with the two bytes 195 and 169, a letter
    outside ASCII in UTF-8. *)
Definition agent : string :=
  String (ascii_of_nat 195) (String (ascii_of_nat 169) "-router").

(** The credentials [f....example.com:x], the four bytes after [f] being
    195, 182, 195, 182: no host has that name. *)
Definition bad_header : string := "Basic ZsO2w7YuZXhhbXBsZS5jb206eA==".

Definition bad_username : string :=
  String "f"
    (String (ascii_of_nat 195) (String (ascii_of_nat 182)
       (String (ascii_of_nat 195) (String (ascii_of_nat 182) ".example.com")))).

(** [hostname=foo.example.com] from that user agent, without header. *)
Definition req_noauth : HttpRequest :=
  Demo.request [("hostname", "foo.example.com")] (Some agent) None
    "198.51.100.7" Demo.alice.

(** The same user agent without header and without [hostname]. *)
Definition req_noauth_plain : HttpRequest :=
  Demo.request [] (Some agent) None "198.51.100.7" Demo.alice.

(** The same parameter with the credentials above, from [ddclient] and
    from the user agent of [BAD_AGENTS]. *)
Definition req_badauth : HttpRequest :=
  Demo.request [("hostname", "foo.example.com")] (Some "ddclient") (Some bad_header)
    "198.51.100.7" Demo.alice.

Definition req_badagent_badauth : HttpRequest :=
  Demo.request [("hostname", "foo.example.com")] (Some "BadBot/1.0") (Some bad_header)
    "198.51.100.7" Demo.alice.

(** The update of the scenario with [hostname=foo.example.com], from that
    user agent. *)
Definition req_good : HttpRequest :=
  Demo.request [("hostname", "foo.example.com"); ("myip", "203.0.113.5")]
    (Some agent) (Some Demo.foo_s3cr3t) "198.51.100.7" Demo.alice.

(** The world after the poke and the update of that request. *)
Definition w_updated : Demo.world :=
  {| Demo.table := Demo.w0.(Demo.table);
     Demo.confirmed := [("foo.example.com", ipv4)];
     Demo.zone := {[ "foo.example.com" := "203.0.113.5" ]} |}.


End DemoNonAscii.

(** ** What [NicUpdateView] hands to the dispatcher *)

(** The host name: the [hostname] parameter, else the user name of the
    credentials (lines 178-180). *)
Definition target (request : HttpRequest) (username : string) : string :=
  default username (QueryDict_get request.(GET) "hostname").

(** The same host name as the value the view holds: a [unicode] object from
    the query, a byte string from the credentials. *)
Definition target_text (request : HttpRequest) (username : string) : pytext :=
  match QueryDict_get request.(GET) "hostname" with
  | None => Bytes username
  | Some h => Unicode h
  end.

(** The address: the [myip] parameter when there is one, else the
    connection address (lines 181-183). *)
Definition claimed (request : HttpRequest) : pyval :=
  match QueryDict_get request.(GET) "myip" with
  | None => REMOTE_ADDR request
  | Some v => PyUnicode v
  end.

(** ** Reading a trace *)

Definition is_poke (ev : event) : bool :=
  match ev with CallPoke _ _ => true | _ => false end.

Definition is_update (ev : event) : bool :=
  match ev with CallUpdate _ _ => true | _ => false end.

Definition is_check_ip (ev : event) : bool :=
  match ev with CallCheckIp _ => true | _ => false end.

(** The calls to [poke] of a trace, in order. *)
Fixpoint pokes (t : list event) : list (Host * kind) :=
  match t with
  | [] => []
  | CallPoke h k :: t' => (h, k) :: pokes t'
  | _ :: t' => pokes t'
  end.

(** The lookups in the host directory of a trace, in order. *)
Fixpoint lookups (t : list event) : list (string * option User) :=
  match t with
  | [] => []
  | CallFilter name owner :: t' => (name, owner) :: lookups t'
  | _ :: t' => lookups t'
  end.

(** [a] occurs in [t] and no call of the DNS primitive comes before it. *)
Definition before_any_update (a : event) (t : list event) : Prop :=
  exists pre post,
    t = pre ++ a :: post /\ forallb (fun ev => negb (is_update ev)) pre = true.

(** The trace holds no classification, no [poke] and no DNS update. *)
Definition untouched (t : list event) : bool :=
  forallb (fun ev => negb (is_check_ip ev || is_poke ev || is_update ev)) t.

(** ** Reading a response *)

Definition realm : string := "authenticate to update DNS".

(** [x] is the 401 response with the given body that carries the Basic
    challenge for [realm]. *)
Definition is_challenge (body : string) (x : retval) : Prop :=
  exists r,
    x = PyResponse r
    /\ r.(status_code) = 401
    /\ r.(content) = body
    /\ r.(content_type) = "text/plain"
    /\ r.(headers) !! "WWW-Authenticate"
       = Some ("Basic realm=" +:+ PyString.dquote +:+ realm +:+ PyString.dquote).

(** [x] is a response object with the given body. *)
Definition has_body (body : string) (x : retval) : Prop :=
  exists r, x = PyResponse r /\ r.(content) = body.

(** ** The log lines that format several values *)

(** Line 231. *)
Definition good_line (hostname : pytext) (ipaddr agent : string) : result string :=
  percent [Arg (as_value hostname); Lit " - received good update -> ip: ";
           Arg (PyStr ipaddr); Lit " [ua: "; Arg (PyStr agent); Lit "]"].

(** Line 234. *)
Definition nochg_line (hostname : pytext) (ipaddr agent : string) : result string :=
  percent [Arg (as_value hostname); Lit " - received no-change update, ip: ";
           Arg (PyStr ipaddr); Lit " [ua: "; Arg (PyStr agent); Lit "]"].

(** Line 172. *)
Definition noauth_line (request : HttpRequest) : result string :=
  percent [Arg (parameter (QueryDict_get request.(GET) "hostname"));
           Lit " - received no auth [ua: "; Arg (PyStr (HTTP_USER_AGENT request));
           Lit "]"].

(** Line 176. *)
Definition badauth_line (request : HttpRequest) (username : string) : result string :=
  percent [Arg (parameter (QueryDict_get request.(GET) "hostname"));
           Lit " - received bad credentials, username: "; Arg (PyStr username);
           Lit " [ua: "; Arg (PyStr (HTTP_USER_AGENT request)); Lit "]"].

(** Line 185. *)
Definition badagent_line (request : HttpRequest) (username : string) : result string :=
  percent [Arg (as_value (target_text request username));
           Lit " - received update from bad user agent [ua: ";
           Arg (PyStr (HTTP_USER_AGENT request)); Lit "]"].

Definition is_log (ev : event) : bool :=
  match ev with Log _ _ => true | _ => false end.

(** ** Reading an outcome *)

(** The trace holds a call of [poke] or of the DNS primitive. *)
Definition acted (t : list event) : bool :=
  existsb (fun ev => is_poke ev || is_update ev) t.

(** [x] is one of the two answers of a dispatch that reached the DNS
    primitive: [good] or [nochg], followed by the address. *)
Definition is_update_line (x : retval) : Prop :=
  exists ip,
    x = PyResponse (Response ("good " +:+ ip))
    \/ x = PyResponse (Response ("nochg " +:+ ip)).

(** The error line of a host name with several records is in the trace. *)
Definition logs_duplicate (name : string) (t : list event) : Prop :=
  In (Log ERROR ("fqdn " +:+ name +:+ " has multiple entries")) t.

(** ** The session endpoints *)

(** [KeyError]: a key that a dict or the session does not hold. *)
Definition KeyError : exception := OtherError "KeyError".

(** What a session holds under a key: [None], a text or a point in time. *)
Inductive pyobj : Type :=
| ObjNone
| ObjText (s : string)
| ObjTime (t : nat).

(** The code outside [views.py] that the session endpoints use, over the
    world [W]:
    - [session_load w key] is the data of [SessionStore(session_key=key)],
      read at the first access to the session;
    - [session_save key data] is [s.save()];
    - [clock_now w] is [django.utils.timezone.now()];
    - [json_dumps d] is [json.dumps(d)], which may raise;
    - [repr_dict d] is ['%r' % (d, )];
    - [DEFAULT_CONTENT_TYPE] is the content type of an [HttpResponse] made
      without one. *)
Record Sessions (W : Type) : Type := {
  session_load : W -> option string -> gmap string pyobj;
  session_save : option string -> gmap string pyobj -> W -> W;
  clock_now : W -> nat;
  json_dumps : gmap string pyobj -> result string;
  repr_dict : gmap string pyobj -> string;
  DEFAULT_CONTENT_TYPE : string
}.
Arguments session_load {W} _ _ _.
Arguments session_save {W} _ _ _ _.
Arguments clock_now {W} _ _.
Arguments json_dumps {W} _ _.
Arguments repr_dict {W} _ _.
Arguments DEFAULT_CONTENT_TYPE {W} _.

(** The key [check_ip] returns for a family, one of [('ipv4', 'ipv6')]. *)
Definition kind_key (k : kind) : string :=
  match k with
  | ipv4 => "ipv4"
  | ipv6 => "ipv6"
  end.

(** [d[key]] on a dict. *)
Definition dict_getitem {W A} (d : gmap string A) (key : string) : M W A :=
  match d !! key with
  | Some v => mret v
  | None => raise KeyError
  end.

(** What [DetectIpView] writes into a session: the address under the key
    of its family and the time under that key followed by [_timestamp]
    (lines 54-55). *)
Definition detected (k : kind) (ipaddr : string) (t : nat)
           (s : gmap string pyobj) : gmap string pyobj :=
  <[kind_key k +:+ "_timestamp" := ObjTime t]> (<[kind_key k := ObjText ipaddr]> s).

Section SessionViews.

Context {W : Type} (E : Env W) (S : Sessions W).

(** *** MyIpView *)


(** *** DetectIpView

    The session object [s] is a dict that is loaded at its first use and
    written back by [s.save()].  [check_ip(ipaddr)] is called without keys
    and its answer is the session key: one of [ipv4] and [ipv6], the two
    entries [AjaxGetIps] reads. *)

Definition SessionStore_load (secret : option string) : M W (gmap string pyobj) :=
  fun w => (Return (session_load S w secret), w, []).

Definition SessionStore_save (secret : option string) (s : gmap string pyobj) : M W unit :=
  fun w => (Return tt, session_save S secret s w, []).

Definition now : M W nat :=
  fun w => (Return (clock_now S w), w, []).

Definition DetectIpView (request : HttpRequest) (secret : option string) : M W retval :=
  ipaddr ← dict_getitem request.(META) "REMOTE_ADDR";
  key ← check_ip E ipaddr;
  s ← SessionStore_load secret;
  let s := <[kind_key key := ObjText ipaddr]> s in
  timestamp ← now;
  let s := <[kind_key key +:+ "_timestamp" := ObjTime timestamp]> s in
  log DEBUG ("detected " +:+ kind_key key +:+ ": " +:+ ipaddr);;
  SessionStore_save secret s;;
  mret (PyResponse {| content := ""; content_type := DEFAULT_CONTENT_TYPE S;
                      status_code := 204; headers := ∅ |}).

(** *** AjaxGetIps

    [session] is [request.session], the session of the requester. *)

Definition AjaxGetIps (session : gmap string pyobj) : M W retval :=
  v4 ← dict_getitem session "ipv4";
  v6 ← dict_getitem session "ipv6";
  let response : gmap string pyobj := <["ipv6" := v6]> (<["ipv4" := v4]> ∅) in
  log DEBUG ("ajax_get_ips response: " +:+ repr_dict S response);;
  body ← lift (json_dumps S response);
  mret (PyResponse {| content := body; content_type := "application/json";
                      status_code := 200; headers := ∅ |}).

End SessionViews.

(** ** A concrete world with sessions *)

Module DemoSessions.

(** The world of [Demo] beside a session table and a clock. *)
Record store : Type := {
  sessions : gmap string (gmap string pyobj);
  time : nat
}.

Definition world : Type := Demo.world * store.

(** The collaborators of [Demo], on the first component. *)
Definition env : Env world :=
  {| env_filter_by_fqdn := fun w => env_filter_by_fqdn Demo.env w.1;
     env_check_password := env_check_password Demo.env;
     env_check_ip := env_check_ip Demo.env;
     env_poke := fun h k w => (env_poke Demo.env h k w.1, w.2);
     env_update := fun hostname ipaddr w =>
                     ((env_update Demo.env hostname ipaddr w.1).1,
                      ((env_update Demo.env hostname ipaddr w.1).2, w.2));
     env_b64decode := env_b64decode Demo.env;
     env_BAD_AGENTS := env_BAD_AGENTS Demo.env |}.

(** A session without key is empty and is not kept. *)
Definition load (w : world) (key : option string) : gmap string pyobj :=
  match key with
  | Some k => default ∅ (w.2.(sessions) !! k)
  | None => ∅
  end.

Definition save (key : option string) (data : gmap string pyobj) (w : world) : world :=
  match key with
  | Some k => (w.1, {| sessions := <[k := data]> w.2.(sessions); time := w.2.(time) |})
  | None => w
  end.

(** Texts and [None] are written; a point in time is not serializable. *)
Definition dumps_value (v : pyobj) : result string :=
  match v with
  | ObjNone => Return "null"
  | ObjText s => Return (PyString.dquote +:+ s +:+ PyString.dquote)
  | ObjTime _ => Raise TypeError
  end.

Definition dumps (d : gmap string pyobj) : result string :=
  match d !! "ipv4", d !! "ipv6" with
  | Some a, Some b =>
      match dumps_value a, dumps_value b with
      | Return x, Return y =>
          Return ("{" +:+ PyString.dquote +:+ "ipv4" +:+ PyString.dquote +:+ ": " +:+ x
                  +:+ ", " +:+ PyString.dquote +:+ "ipv6" +:+ PyString.dquote +:+ ": "
                  +:+ y +:+ "}")
      | Raise e, _ => Raise e
      | _, Raise e => Raise e
      end
  | _, _ => Return "{}"
  end.

Definition sess : Sessions world :=
  {| session_load := load;
     session_save := save;
     clock_now := fun w => w.2.(time);
     json_dumps := dumps;
     repr_dict := fun _ => "{...}";
     DEFAULT_CONTENT_TYPE := "text/html; charset=utf-8" |}.

(** One session, opened by the browser, with an entry of its own. *)
Definition w0 : world :=
  (Demo.w0, {| sessions := {[ "k3y" := {[ "_auth_user_id" := ObjText "1" ]} ]};
               time := 1000 |}).

(** Requests that arrive over either family, one with an address that is
    none, one without connection address. *)
Definition req_v4 : HttpRequest :=
  Demo.request [] (Some "Mozilla/5.0") None "198.51.100.7" Demo.alice.

Definition req_v6 : HttpRequest :=
  Demo.request [] (Some "Mozilla/5.0") None "2001:db8::7" Demo.alice.

Definition req_unix : HttpRequest :=
  Demo.request [] (Some "Mozilla/5.0") None "unix:/run/web.sock" Demo.alice.

Definition req_no_remote : HttpRequest :=
  {| GET := []; META := ∅; user := Demo.alice |}.

(** The credentials of [foo.example.com], used for another host name. *)
Definition bar : Host :=
  {| fqdn := "bar.example.com"; created_by := Demo.bob; update_secret := "plain$hunter2" |}.

Definition w_two : Demo.world :=
  {| Demo.table := [Demo.foo; bar]; Demo.confirmed := []; Demo.zone := ∅ |}.

Definition req_other_host : HttpRequest :=
  Demo.request [("hostname", "bar.example.com"); ("myip", "203.0.113.5")]
    (Some "ddclient") (Some Demo.foo_s3cr3t) "198.51.100.7" Demo.alice.

(** Headers: no space at all, and the scenario's credentials under a scheme
    in capitals with blanks around the payload. *)
Definition req_no_space : HttpRequest :=
  Demo.request [] (Some "ddclient") (Some "Basic") "198.51.100.7" Demo.alice.

(** A [myip] with a code point above 127, and a request without [myip] and
    without connection address. *)
Definition req_non_ascii : HttpRequest :=
  Demo.request [("myip", String (ascii_of_nat 233) "1.2.3.4")]
    (Some "ddclient") (Some Demo.foo_s3cr3t) "198.51.100.7" Demo.alice.

Definition req_no_address : HttpRequest :=
  {| GET := [];
     META := {[ "HTTP_AUTHORIZATION" := Demo.foo_s3cr3t ]};
     user := Demo.alice |}.

Definition req_bad_myip : HttpRequest :=
  Demo.request [("myip", "not-an-address")]
    (Some "ddclient") (Some Demo.foo_s3cr3t) "198.51.100.7" Demo.alice.

(** The scheme in capitals, blanks around the payload, and a payload that
    decodes to [foo.example.com:s3:cr3t]. *)
Definition capitals_payload : string := "  Zm9vLmV4YW1wbGUuY29tOnMzOmNyM3Q=  ".

(** Sessions of a browser: one family detected, and both, the second one
    beside other entries. *)
Definition browser_v4 : gmap string pyobj :=
  <["ipv4_timestamp" := ObjTime 1000]> {[ "ipv4" := ObjText "198.51.100.7" ]}.

Definition browser_both : gmap string pyobj :=
  <["ipv6" := ObjText "2001:db8::7"]> {[ "ipv4" := ObjText "198.51.100.7" ]}.

Definition browser_both_more : gmap string pyobj :=
  <["_auth_user_id" := ObjText "1"]>
    (<["ipv6_timestamp" := ObjTime 1001]>
       (<["ipv4_timestamp" := ObjTime 1000]> browser_both)).

(** The world after [req_v4] was detected under the key [k3y]. *)
Definition w_v4 : world :=
  (Demo.w0,
   {| sessions := {[ "k3y" := detected ipv4 "198.51.100.7" 1000
                                 {[ "_auth_user_id" := ObjText "1" ]} ]};
      time := 1001 |}).


End DemoSessions.

(** Unfolds the monad and the calls to the collaborators. *)
Ltac run :=
  unfold _update, check_api_auth, check_session_auth, filter_by_fqdn, check_ip,
    poke, update, log, emit, try_except, lift, getitem, raise, check_password,
    outcome, final, trace;
  unfold mbind, M_bind, mret, M_ret; cbn.

(** ** Python strings: examples *)

Example split1_two : PyString.split1 " " "Basic Zm9v YmFy" = ["Basic"; "Zm9v YmFy"].
Proof. reflexivity. Qed.

Example split1_none : PyString.split1 ":" "foo" = ["foo"].
Proof. reflexivity. Qed.

Example lower_basic : PyString.lower "BaSiC" = "basic".
Proof. reflexivity. Qed.

Example strip_both : PyString.strip "  Zm9v " = "Zm9v".
Proof. reflexivity. Qed.

(** ** The dispatcher *)

Section Dispatcher.

Context {W : Type} (E : Env W).

(** Zero or several records: the dispatcher returns [False] after the
    lookup (and the error line, for several), and the world is as it
    was. *)
Lemma _update_not_unique hostname ipaddr agent w s :
  str ipaddr = Return s ->
  length (env_filter_by_fqdn E w (text hostname) None) <> 1 ->
  _update E hostname ipaddr agent w =
    (Return PyFalse, w,
     CallFilter (text hostname) None ::
     if (1 <? length (env_filter_by_fqdn E w (text hostname) None))%nat
     then [Log ERROR ("fqdn " +:+ text hostname +:+ " has multiple entries")]
     else []).
Proof.
  intros Hs Hn. run. rewrite Hs.
  destruct (env_filter_by_fqdn E w (text hostname) None) as [|h [|h' l]]; cbn in *;
    [reflexivity | congruence | reflexivity].
Qed.

(** One record and a classified address: lookup, classification, [poke],
    then the DNS primitive on the world [poke] left; the answer follows
    the log line, which may raise. *)
Lemma _update_unique hostname ipaddr agent w s h k :
  str ipaddr = Return s ->
  env_filter_by_fqdn E w (text hostname) None = [h] ->
  env_check_ip E s = Some k ->
  _update E hostname ipaddr agent w =
    let w1 := env_poke E h k w in
    let r := env_update E (text hostname) s w1 in
    let calls := [CallFilter (text hostname) None; CallCheckIp s; CallPoke h k;
                  CallUpdate (text hostname) s] in
    match r.1 with
    | Return _ =>
        match good_line hostname s agent with
        | Return msg =>
            (Return (PyResponse (Response ("good " +:+ s))), r.2,
             calls ++ [Log INFO msg])
        | Raise e => (Raise e, r.2, calls)
        end
    | Raise SameIpError =>
        match nochg_line hostname s agent with
        | Return msg =>
            (Return (PyResponse (Response ("nochg " +:+ s))), r.2,
             calls ++ [Log WARNING msg])
        | Raise e => (Raise e, r.2, calls)
        end
    | Raise e => (Raise e, r.2, calls)
    end.
Proof.
  intros Hs Hh Hk. run. rewrite Hs, Hh. cbn. rewrite Hk. cbn.
  fold (good_line hostname s agent). fold (nochg_line hostname s agent).
  destruct (env_update E (text hostname) s (env_poke E h k w)) as [[u|e] w2];
    cbn [fst snd].
  - destruct (good_line hostname s agent); reflexivity.
  - destruct e; try reflexivity.
    destruct (nochg_line hostname s agent); reflexivity.
Qed.

(** The same run, as far as the calls go: the four calls, then at most the
    log line. *)
Lemma _update_unique_shape hostname ipaddr agent w s h k :
  str ipaddr = Return s ->
  env_filter_by_fqdn E w (text hostname) None = [h] ->
  env_check_ip E s = Some k ->
  exists tl,
    trace (_update E hostname ipaddr agent w)
    = [CallFilter (text hostname) None; CallCheckIp s; CallPoke h k;
       CallUpdate (text hostname) s] ++ tl
    /\ forallb is_log tl = true
    /\ final (_update E hostname ipaddr agent w)
       = (env_update E (text hostname) s (env_poke E h k w)).2.
Proof.
  intros Hs Hh Hk. rewrite (_update_unique _ _ _ _ _ _ _ Hs Hh Hk). cbn zeta.
  destruct (env_update E (text hostname) s (env_poke E h k w)) as [[u|e] w2];
    cbn [fst snd].
  - destruct (good_line hostname s agent);
      [eexists; split; [reflexivity|]; split; reflexivity
      |exists []; split; [reflexivity|]; split; reflexivity].
  - destruct e;
      try (exists []; split; [reflexivity|]; split; reflexivity).
    destruct (nochg_line hostname s agent);
      [eexists; split; [reflexivity|]; split; reflexivity
      |exists []; split; [reflexivity|]; split; reflexivity].
Qed.

(** One record and an address the classifier rejects: [InvalidIPError]
    leaves the dispatcher after the classification. *)
Lemma _update_invalid_ip hostname ipaddr agent w s :
  str ipaddr = Return s ->
  length (env_filter_by_fqdn E w (text hostname) None) = 1 ->
  env_check_ip E s = None ->
  _update E hostname ipaddr agent w =
    (Raise InvalidIPError, w, [CallFilter (text hostname) None; CallCheckIp s]).
Proof.
  intros Hs Hn Hk. run. rewrite Hs.
  destruct (env_filter_by_fqdn E w (text hostname) None) as [|h [|h' l]]; cbn in *;
    try discriminate.
  rewrite Hk. reflexivity.
Qed.

(** [str] fails: nothing is looked up. *)
Lemma _update_str_raises hostname ipaddr agent w e :
  str ipaddr = Raise e ->
  _update E hostname ipaddr agent w = (Raise e, w, []).
Proof. intros Hs. run. rewrite Hs. reflexivity. Qed.

Lemma untouched_no_update t h a :
  forallb (fun ev => negb (is_update ev)) t = true -> ~ In (CallUpdate h a) t.
Proof.
  intros Hall Hin. rewrite forallb_forall in Hall.
  apply Hall in Hin. discriminate.
Qed.

Lemma log_only_no_update tl :
  forallb is_log tl = true -> forallb (fun ev => negb (is_update ev)) tl = true.
Proof.
  induction tl as [|ev tl IH]; [reflexivity|]. cbn. intros Hl.
  apply andb_true_iff in Hl. destruct Hl as [Hev Htl].
  rewrite (IH Htl). destruct ev; try discriminate. reflexivity.
Qed.

Lemma log_only_no_poke tl : forallb is_log tl = true -> pokes tl = [].
Proof.
  induction tl as [|ev tl IH]; [reflexivity|]. cbn. intros Hl.
  apply andb_true_iff in Hl. destruct Hl as [Hev Htl].
  destruct ev; try discriminate. exact (IH Htl).
Qed.

(** C3: when the dispatcher resolves exactly one host record and the
    address is classified, the trace holds exactly one call of [poke], on
    that record and with the classified family; it comes before any call
    of the DNS primitive, which is then called on the world [poke] left.
    Nothing is assumed on what the primitive answers, so this covers the
    run in which it raises [SameIpError]. *)
Theorem C3_poke_once_before_update hostname ipaddr agent w s h k :
  str ipaddr = Return s ->
  env_filter_by_fqdn E w (text hostname) None = [h] ->
  env_check_ip E s = Some k ->
  pokes (trace (_update E hostname ipaddr agent w)) = [(h, k)]
  /\ before_any_update (CallPoke h k) (trace (_update E hostname ipaddr agent w))
  /\ In (CallUpdate (text hostname) s) (trace (_update E hostname ipaddr agent w))
  /\ final (_update E hostname ipaddr agent w)
     = (env_update E (text hostname) s (env_poke E h k w)).2.
Proof.
  intros Hs Hh Hk.
  destruct (_update_unique_shape _ _ agent _ _ _ _ Hs Hh Hk) as (tl & -> & Hlog & ->).
  split; [|split; [|split]].
  - cbn. rewrite (log_only_no_poke _ Hlog). reflexivity.
  - exists [CallFilter (text hostname) None; CallCheckIp s],
           (CallUpdate (text hostname) s :: tl).
    split; reflexivity.
  - right; right; right; left; reflexivity.
  - reflexivity.
Qed.

(** C7: in every run of the dispatcher, a call of the DNS primitive with
    an address is preceded in the trace by the classification of that
    address, and an address the classifier rejects is never handed to the
    DNS primitive. *)
Theorem C7_classified_before_update hostname ipaddr agent w :
  (forall pre h a post,
      trace (_update E hostname ipaddr agent w) = pre ++ CallUpdate h a :: post ->
      In (CallCheckIp a) pre)
  /\ (forall h a,
        env_check_ip E a = None ->
        ~ In (CallUpdate h a) (trace (_update E hostname ipaddr agent w))).
Proof.
  destruct (str ipaddr) as [s|e] eqn:Hs.
  2:{ rewrite (_update_str_raises _ _ _ _ _ Hs). cbn. split.
      - intros pre h a post Heq. destruct pre; discriminate.
      - intros h a _ []. }
  destruct (Nat.eq_dec (length (env_filter_by_fqdn E w (text hostname) None)) 1)
    as [Hn|Hn].
  2:{ rewrite (_update_not_unique _ _ _ _ _ Hs Hn). unfold trace. cbn [snd].
      set (t := CallFilter (text hostname) None :: _).
      assert (Hno : forall h a, ~ In (CallUpdate h a) t).
      { subst t. intros h a [Hin|Hin]; [discriminate|].
        destruct (1 <? _)%nat; [destruct Hin as [Hin|[]]; discriminate | destruct Hin]. }
      split.
      - intros pre h a post Heq. exfalso. apply (Hno h a).
        rewrite Heq. apply in_or_app. right. left. reflexivity.
      - intros h a _. apply Hno. }
  destruct (env_check_ip E s) as [k|] eqn:Hk.
  2:{ rewrite (_update_invalid_ip _ _ _ _ _ Hs Hn Hk). cbn. split.
      - intros pre h a post Heq.
        destruct pre as [|? [|? [|? ?]]]; discriminate.
      - intros h a _ [Hin|[Hin|[]]]; discriminate. }
  destruct (env_filter_by_fqdn E w (text hostname) None) as [|h0 [|h1 l]] eqn:Hh;
    try discriminate.
  destruct (_update_unique_shape _ _ agent _ _ _ _ Hs Hh Hk) as (tl & -> & Hlog & _).
  pose proof (log_only_no_update _ Hlog) as Htl.
  split.
  - intros pre h a post Heq.
    destruct pre as [|e0 [|e1 [|e2 [|e3 pre]]]]; cbn in Heq; try discriminate.
    + inversion Heq; subst. right; left; reflexivity.
    + injection Heq as _ _ _ _ Hrest. exfalso.
      apply (untouched_no_update tl h a Htl). rewrite Hrest.
      apply in_or_app. right. left. reflexivity.
  - intros h a Ha [Hin|[Hin|[Hin|[Hin|Hin]]]]; try discriminate.
    + injection Hin as _ ->. congruence.
    + exact (untouched_no_update tl h a Htl Hin).
Qed.

End Dispatcher.

(** The second request of the scenario, on the world the first one left:
    the zone holds the address already, the DNS primitive raises
    [SameIpError], and [poke] has been called once before it. *)
Lemma C3_witness_nochg :
  (str (PyUnicode "203.0.113.5") = Return "203.0.113.5"
   /\ env_filter_by_fqdn Demo.env Demo.w1 (text (Unicode "foo.example.com")) None
      = [Demo.foo]
   /\ env_check_ip Demo.env "203.0.113.5" = Some ipv4
   /\ (env_update Demo.env "foo.example.com" "203.0.113.5"
         (env_poke Demo.env Demo.foo ipv4 Demo.w1)).1 = Raise SameIpError)
  /\ (pokes (trace (_update Demo.env (Unicode "foo.example.com")
                     (PyUnicode "203.0.113.5") "ddclient" Demo.w1))
      = [(Demo.foo, ipv4)]
      /\ before_any_update (CallPoke Demo.foo ipv4)
           (trace (_update Demo.env (Unicode "foo.example.com")
                     (PyUnicode "203.0.113.5") "ddclient" Demo.w1))
      /\ In (CallUpdate "foo.example.com" "203.0.113.5")
           (trace (_update Demo.env (Unicode "foo.example.com")
                     (PyUnicode "203.0.113.5") "ddclient" Demo.w1))
      /\ final (_update Demo.env (Unicode "foo.example.com") (PyUnicode "203.0.113.5")
                  "ddclient" Demo.w1)
         = (env_update Demo.env "foo.example.com" "203.0.113.5"
              (env_poke Demo.env Demo.foo ipv4 Demo.w1)).2).
Proof.
  split.
  - repeat split; vm_compute; reflexivity.
  - apply (C3_poke_once_before_update Demo.env (Unicode "foo.example.com")
             (PyUnicode "203.0.113.5") "ddclient" Demo.w1 "203.0.113.5" Demo.foo ipv4);
      vm_compute; reflexivity.
Defined.

(** The dispatcher answers [good]/[nochg] when the log line formats: with
    one record and a classified address, the answer follows what the DNS
    primitive did, and any other exception of the primitive leaves the
    dispatcher. *)
Lemma _update_answers {W} (E : Env W) hostname ipaddr agent w s h k :
  str ipaddr = Return s ->
  env_filter_by_fqdn E w (text hostname) None = [h] ->
  env_check_ip E s = Some k ->
  (forall msg,
      (env_update E (text hostname) s (env_poke E h k w)).1 = Return tt ->
      good_line hostname s agent = Return msg ->
      outcome (_update E hostname ipaddr agent w)
      = Return (PyResponse (Response ("good " +:+ s))))
  /\ (forall msg,
        (env_update E (text hostname) s (env_poke E h k w)).1 = Raise SameIpError ->
        nochg_line hostname s agent = Return msg ->
        outcome (_update E hostname ipaddr agent w)
        = Return (PyResponse (Response ("nochg " +:+ s))))
  /\ (forall e,
        (env_update E (text hostname) s (env_poke E h k w)).1 = Raise e ->
        e <> SameIpError ->
        outcome (_update E hostname ipaddr agent w) = Raise e)
  /\ (forall e,
        (env_update E (text hostname) s (env_poke E h k w)).1 = Return tt ->
        good_line hostname s agent = Raise e ->
        outcome (_update E hostname ipaddr agent w) = Raise e).
Proof.
  intros Hs Hh Hk. rewrite (_update_unique E _ _ _ _ _ _ _ Hs Hh Hk). cbn zeta.
  destruct (env_update E (text hostname) s (env_poke E h k w)) as [[[]|e] w2];
    cbn [fst snd]; unfold outcome; cbn [fst].
  - split; [intros msg _ ->; reflexivity|].
    split; [intros msg He; discriminate|].
    split; [intros e He; discriminate|].
    intros e _ ->. reflexivity.
  - split; [intros msg He; discriminate|].
    split; [intros msg [= ->] ->; reflexivity|].
    split; [|intros e' He; discriminate].
    intros e' [= ->] Hne. destruct e'; try reflexivity. congruence.
Qed.

(** C4, at a dispatch the code can make: the update of the scenario with
    the host name given as a query parameter (a [unicode] object) and a
    user agent with a byte above 127.  The lookup, the classification,
    [poke] and the DNS primitive all go through and the zone holds the
    address; then the log line of line 231 raises [UnicodeDecodeError]
    inside the [try], which only handles [SameIpError]: no [good] answer is
    returned.  With the host name as a byte string the same dispatch
    answers [good 203.0.113.5]. *)
Theorem C4_log_line_raises_after_update :
  (env_update Demo.env "foo.example.com" "203.0.113.5"
     (env_poke Demo.env Demo.foo ipv4 Demo.w0)).1 = Return tt
  /\ _update Demo.env (Unicode "foo.example.com") (PyUnicode "203.0.113.5")
       DemoNonAscii.agent Demo.w0
     = (Raise UnicodeDecodeError, DemoNonAscii.w_updated,
        [CallFilter "foo.example.com" None; CallCheckIp "203.0.113.5";
         CallPoke Demo.foo ipv4; CallUpdate "foo.example.com" "203.0.113.5"])
  /\ NicUpdateView Demo.env DemoNonAscii.req_good Demo.w0
     = (Raise UnicodeDecodeError, DemoNonAscii.w_updated,
        [CallFilter "foo.example.com" None;
         CallFilter "foo.example.com" None; CallCheckIp "203.0.113.5";
         CallPoke Demo.foo ipv4; CallUpdate "foo.example.com" "203.0.113.5"])
  /\ outcome (_update Demo.env (Bytes "foo.example.com") (PyUnicode "203.0.113.5")
                DemoNonAscii.agent Demo.w0)
     = Return (PyResponse (Response "good 203.0.113.5")).
Proof.
  repeat split; vm_compute; reflexivity.
Qed.

(** The same request with [myip=] empty has its address rejected, and the
    trace of the good request shows the classification first. *)
Lemma C7_witness :
  (env_check_ip Demo.env "" = None
   /\ trace (_update Demo.env (Unicode "foo.example.com") (PyUnicode "203.0.113.5")
               "ddclient" Demo.w0)
      = [CallFilter "foo.example.com" None; CallCheckIp "203.0.113.5";
         CallPoke Demo.foo ipv4]
        ++ CallUpdate "foo.example.com" "203.0.113.5"
        :: [Log INFO "foo.example.com - received good update -> ip: 203.0.113.5 [ua: ddclient]"])
  /\ In (CallCheckIp "203.0.113.5")
       [CallFilter "foo.example.com" None; CallCheckIp "203.0.113.5";
        CallPoke Demo.foo ipv4]
  /\ ~ In (CallUpdate "foo.example.com" "")
         (trace (_update Demo.env (Unicode "foo.example.com") (PyUnicode "")
                   "ddclient" Demo.w0)).
Proof.
  split; [split; vm_compute; reflexivity|].
  split.
  - apply (proj1 (C7_classified_before_update Demo.env (Unicode "foo.example.com")
                    (PyUnicode "203.0.113.5") "ddclient" Demo.w0)
             _ "foo.example.com" "203.0.113.5"
             [Log INFO "foo.example.com - received good update -> ip: 203.0.113.5 [ua: ddclient]"]).
    vm_compute; reflexivity.
  - apply (proj2 (C7_classified_before_update Demo.env (Unicode "foo.example.com")
                    (PyUnicode "") "ddclient" Demo.w0)).
    vm_compute; reflexivity.
Defined.

(** ** Credentials and ownership *)

Section Verifiers.

Context {W : Type} (E : Env W).

(** The run of [check_api_auth]: one lookup, the error line when the name
    has several records, and the world as it was. *)
Lemma check_api_auth_run username password w :
  check_api_auth E username password w =
    (Return match env_filter_by_fqdn E w username None with
            | [h] => env_check_password E password h.(update_secret)
            | _ => false
            end,
     w,
     CallFilter username None ::
     if (1 <? length (env_filter_by_fqdn E w username None))%nat
     then [Log ERROR ("fqdn " +:+ username +:+ " has multiple entries")]
     else []).
Proof.
  run. destruct (env_filter_by_fqdn E w username None) as [|h [|h' l]]; reflexivity.
Qed.

(** The run of [check_session_auth]. *)
Lemma check_session_auth_run u hostname w :
  check_session_auth E u hostname w =
    (Return match env_filter_by_fqdn E w hostname (Some u) with
            | [_] => true
            | _ => false
            end,
     w,
     CallFilter hostname (Some u) ::
     if (1 <? length (env_filter_by_fqdn E w hostname (Some u)))%nat
     then [Log ERROR ("fqdn " +:+ hostname +:+ " has multiple entries")]
     else []).
Proof.
  run. destruct (env_filter_by_fqdn E w hostname (Some u)) as [|h [|h' l]]; reflexivity.
Qed.

(** [basic_authenticate] touches neither the world nor the trace. *)
Lemma basic_authenticate_pure auth w :
  basic_authenticate E auth w = (outcome (basic_authenticate E auth w), w, []).
Proof.
  unfold basic_authenticate, unpack2, decode_base64, raise, outcome.
  unfold mbind, M_bind, mret, M_ret.
  destruct (PyString.split1 " " auth) as [|a [|b [|c l]]]; try reflexivity.
  cbn. destruct (negb (String.eqb (PyString.lower a) "basic")); try reflexivity.
  destruct (env_b64decode E (PyString.strip b)) as [d|]; try reflexivity.
  destruct (PyString.split1 ":" d) as [|a' [|b' [|c' l']]]; reflexivity.
Qed.

(** How [basic_authenticate] ends, by the shape of the header. *)
Lemma basic_authenticate_cases auth :
  forall w, outcome (basic_authenticate E auth w) =
    match PyString.split1 " " auth with
    | [authmeth; payload] =>
        if String.eqb (PyString.lower authmeth) "basic" then
          match env_b64decode E (PyString.strip payload) with
          | Some d =>
              match PyString.split1 ":" d with
              | [username; password] => Return (Some (username, password))
              | _ => Raise ValueError
              end
          | None => Raise binascii_Error
          end
        else Return None
    | _ => Raise ValueError
    end.
Proof.
  intros w.
  unfold basic_authenticate, unpack2, decode_base64, raise, outcome.
  unfold mbind, M_bind, mret, M_ret.
  destruct (PyString.split1 " " auth) as [|a [|b [|c l]]]; try reflexivity.
  cbn. destruct (String.eqb (PyString.lower a) "basic"); try reflexivity.
  cbn. destruct (env_b64decode E (PyString.strip b)) as [d|]; try reflexivity.
  destruct (PyString.split1 ":" d) as [|a' [|b' [|c' l']]]; reflexivity.
Qed.

(** C8: [check_api_auth] leaves the world as it was; it returns [False]
    when no host record has the name, [False] when two or more have it
    (whatever their secrets are, so also when the password is theirs),
    and with exactly one record the answer of [check_password] on the
    password and the record's [update_secret]. *)
Theorem C8_check_api_auth username password w :
  final (check_api_auth E username password w) = w
  /\ (length (env_filter_by_fqdn E w username None) = 0 ->
      outcome (check_api_auth E username password w) = Return false)
  /\ (2 <= length (env_filter_by_fqdn E w username None) ->
      outcome (check_api_auth E username password w) = Return false)
  /\ (forall h,
        env_filter_by_fqdn E w username None = [h] ->
        outcome (check_api_auth E username password w)
        = Return (env_check_password E password h.(update_secret))).
Proof.
  rewrite check_api_auth_run. unfold final, outcome. cbn.
  split; [reflexivity|].
  destruct (env_filter_by_fqdn E w username None) as [|h [|h' l]]; cbn.
  - repeat split; try reflexivity; try lia. intros h; discriminate.
  - repeat split; try discriminate; try lia. intros h0 [= ->]. reflexivity.
  - repeat split; try reflexivity. intros h0; discriminate.
Qed.

End Verifiers.

(** [dup.example.com] has two records and [pw] is the password of both;
    [foo.example.com] has one; [bar.example.com] has none. *)
Lemma C8_witness :
  (length (env_filter_by_fqdn Demo.env Demo.w0 "bar.example.com" None) = 0
   /\ 2 <= length (env_filter_by_fqdn Demo.env Demo.w0 "dup.example.com" None)
   /\ forallb (fun h => env_check_password Demo.env "pw" h.(update_secret))
        (env_filter_by_fqdn Demo.env Demo.w0 "dup.example.com" None) = true
   /\ env_filter_by_fqdn Demo.env Demo.w0 "foo.example.com" None = [Demo.foo])
  /\ outcome (check_api_auth Demo.env "bar.example.com" "s3cr3t" Demo.w0) = Return false
  /\ outcome (check_api_auth Demo.env "dup.example.com" "pw" Demo.w0) = Return false
  /\ outcome (check_api_auth Demo.env "foo.example.com" "s3cr3t" Demo.w0)
     = Return (env_check_password Demo.env "s3cr3t" Demo.foo.(update_secret))
  /\ final (check_api_auth Demo.env "foo.example.com" "s3cr3t" Demo.w0) = Demo.w0.
Proof.
  split.
  - split; [|split; [|split]]; [vm_compute; reflexivity | | vm_compute; reflexivity ..].
    apply Nat.leb_le. vm_compute; reflexivity.
  - split; [|split; [|split]].
    + destruct (C8_check_api_auth Demo.env "bar.example.com" "s3cr3t" Demo.w0)
        as (_ & Hzero & _ & _).
      apply Hzero. vm_compute; reflexivity.
    + destruct (C8_check_api_auth Demo.env "dup.example.com" "pw" Demo.w0)
        as (_ & _ & Hmany & _).
      apply Hmany. apply Nat.leb_le. vm_compute; reflexivity.
    + destruct (C8_check_api_auth Demo.env "foo.example.com" "s3cr3t" Demo.w0)
        as (_ & _ & _ & Hone).
      apply Hone. vm_compute; reflexivity.
    + destruct (C8_check_api_auth Demo.env "foo.example.com" "s3cr3t" Demo.w0)
        as (Hsame & _).
      exact Hsame.
Defined.

(** ** The public handlers *)

Section Handlers.

Context {W : Type} (E : Env W).

Lemma target_text_text request u : text (target_text request u) = target request u.
Proof.
  unfold target_text, target. destruct (QueryDict_get _ _); reflexivity.
Qed.

(** No header: the log line, then the challenge. *)
Lemma NicUpdateView_noauth request w :
  request.(META) !! "HTTP_AUTHORIZATION" = None ->
  NicUpdateView E request w =
    match noauth_line request with
    | Return msg =>
        (Return (PyResponse (basic_challenge realm "noauth")), w, [Log WARNING msg])
    | Raise e => (Raise e, w, [])
    end.
Proof.
  intros Hh. unfold NicUpdateView. rewrite Hh.
  fold (noauth_line request). unfold lift, log, emit.
  unfold mbind, M_bind, mret, M_ret.
  destruct (noauth_line request); reflexivity.
Qed.

(** The header does not decode: the exception of [basic_authenticate]
    leaves the view. *)
Lemma NicUpdateView_undecoded request w auth e :
  request.(META) !! "HTTP_AUTHORIZATION" = Some auth ->
  outcome (basic_authenticate E auth w) = Raise e ->
  NicUpdateView E request w = (Raise e, w, []).
Proof.
  intros Hh Hb. unfold NicUpdateView. rewrite Hh.
  unfold mbind at 1. unfold M_bind at 1.
  rewrite basic_authenticate_pure, Hb. reflexivity.
Qed.

(** [basic_authenticate] returns [None]: unpacking it raises. *)
Lemma NicUpdateView_none request w auth :
  request.(META) !! "HTTP_AUTHORIZATION" = Some auth ->
  outcome (basic_authenticate E auth w) = Return None ->
  NicUpdateView E request w = (Raise TypeError, w, []).
Proof.
  intros Hh Hb. unfold NicUpdateView. rewrite Hh.
  unfold mbind at 1. unfold M_bind at 1.
  rewrite basic_authenticate_pure, Hb. reflexivity.
Qed.

(** The header decodes to [(u, p)]: the view goes on with the verdict of
    [check_api_auth]. *)
Lemma NicUpdateView_credentials request w auth u p :
  request.(META) !! "HTTP_AUTHORIZATION" = Some auth ->
  outcome (basic_authenticate E auth w) = Return (Some (u, p)) ->
  NicUpdateView E request w =
    let checked := check_api_auth E u p w in
    match outcome checked with
    | Return true =>
        if py_in (HTTP_USER_AGENT request) (env_BAD_AGENTS E) then
          match badagent_line request u with
          | Return msg =>
              (Return (PyResponse (Response "badagent")), w,
               trace checked ++ [Log INFO msg])
          | Raise e => (Raise e, w, trace checked)
          end
        else
          let dispatched :=
            _update E (target_text request u) (claimed request)
              (HTTP_USER_AGENT request) w in
          (outcome dispatched, final dispatched, trace checked ++ trace dispatched)
    | Return false =>
        match badauth_line request u with
        | Return msg =>
            (Return (PyResponse (basic_challenge realm "badauth")), w,
             trace checked ++ [Log INFO msg])
        | Raise e => (Raise e, w, trace checked)
        end
    | Raise e => (Raise e, final checked, trace checked)
    end.
Proof.
  intros Hh Hb. unfold NicUpdateView. rewrite Hh.
  unfold mbind at 1. unfold M_bind at 1.
  rewrite basic_authenticate_pure, Hb.
  unfold unpack_pair. unfold mbind at 1. unfold M_bind at 1.
  unfold mret at 1. unfold M_ret at 1.
  unfold mbind at 1. unfold M_bind at 1.
  cbn zeta. rewrite check_api_auth_run. unfold outcome, final, trace. cbn [fst snd].
  fold (badauth_line request u).
  fold (target_text request u). fold (badagent_line request u). fold (claimed request).
  destruct (match env_filter_by_fqdn E w u None with
            | [h] => env_check_password E p h.(update_secret)
            | _ => false
            end); cbn [negb].
  - destruct (py_in (HTTP_USER_AGENT request) (env_BAD_AGENTS E)).
    + unfold lift, log, emit. unfold mbind, M_bind, mret, M_ret.
      destruct (badagent_line request u); cbn; rewrite ?app_nil_r; reflexivity.
    + destruct (_update E _ _ _ w) as [[r w2] t2]. reflexivity.
  - unfold lift, log, emit. unfold mbind, M_bind, mret, M_ret.
    destruct (badauth_line request u); cbn; rewrite ?app_nil_r; reflexivity.
Qed.

Lemma basic_challenge_is_challenge body :
  is_challenge body (PyResponse (basic_challenge realm body)).
Proof.
  exists (basic_challenge realm body).
  split; [reflexivity|]. split; [reflexivity|]. split; [reflexivity|].
  split; [reflexivity|].
  unfold basic_challenge, setitem, set_status_code, Response. cbn.
  apply lookup_insert_eq.
Qed.

Lemma check_api_auth_trace_untouched u p w tl :
  untouched tl = true ->
  untouched (trace (check_api_auth E u p w) ++ tl) = true.
Proof.
  intros Htl. rewrite check_api_auth_run. unfold trace. cbn [snd].
  destruct (1 <? _)%nat; cbn; exact Htl.
Qed.

(** The run of [AuthorizedNicUpdateView] on a host name the user owns
    once. *)
Lemma AuthorizedNicUpdateView_owned request w hostname :
  QueryDict_get request.(GET) "hostname" = Some hostname ->
  length (env_filter_by_fqdn E w hostname (Some request.(user))) = 1 ->
  AuthorizedNicUpdateView E request w =
    let ipaddr := match QueryDict_get request.(GET) "myip" with
                  | None | Some "" => REMOTE_ADDR request
                  | Some v => PyUnicode v
                  end in
    let dispatched := _update E (Unicode hostname) ipaddr (HTTP_USER_AGENT request) w in
    (outcome dispatched, final dispatched,
     CallFilter hostname (Some request.(user)) :: trace dispatched).
Proof.
  intros Hh Hn. unfold AuthorizedNicUpdateView. rewrite Hh.
  unfold mbind at 1. unfold M_bind at 1. rewrite check_session_auth_run.
  destruct (env_filter_by_fqdn E w hostname (Some request.(user))) as [|h [|h' l]];
    try discriminate.
  cbn -[_update]. unfold outcome, final, trace.
  destruct (_update E (Unicode hostname) _ _ w) as [[r w2] t2]. reflexivity.
Qed.

(** The run of [AuthorizedNicUpdateView] on a host name the user does not
    own exactly once. *)
Lemma AuthorizedNicUpdateView_not_owned request w hostname :
  QueryDict_get request.(GET) "hostname" = Some hostname ->
  length (env_filter_by_fqdn E w hostname (Some request.(user))) <> 1 ->
  AuthorizedNicUpdateView E request w =
    (Return (PyResponse (Response "nohost")), w,
     (CallFilter hostname (Some request.(user)) ::
      if (1 <? length (env_filter_by_fqdn E w hostname (Some request.(user))))%nat
      then [Log ERROR ("fqdn " +:+ hostname +:+ " has multiple entries")]
      else [])
     ++ [Log INFO (hostname +:+ " - is not owned by user: "
                   +:+ request.(user).(username))]).
Proof.
  intros Hh Hn. unfold AuthorizedNicUpdateView. rewrite Hh.
  unfold mbind at 1. unfold M_bind at 1. rewrite check_session_auth_run.
  destruct (env_filter_by_fqdn E w hostname (Some request.(user))) as [|h [|h' l]];
    cbn in Hn; try congruence; reflexivity.
Qed.

(** The answers of [NicUpdateView] when its log line formats: the
    challenge [noauth] without header, the challenge [badauth] for rejected
    credentials, the body [badagent] for accepted ones from a user agent of
    [BAD_AGENTS], with the world as it was and no classification, no
    [poke] and no DNS update. *)
Lemma NicUpdateView_answers request w :
  (forall msg,
      request.(META) !! "HTTP_AUTHORIZATION" = None ->
      noauth_line request = Return msg ->
      outcome (NicUpdateView E request w)
      = Return (PyResponse (basic_challenge realm "noauth")))
  /\ (forall auth u p msg,
        request.(META) !! "HTTP_AUTHORIZATION" = Some auth ->
        outcome (basic_authenticate E auth w) = Return (Some (u, p)) ->
        outcome (check_api_auth E u p w) = Return false ->
        badauth_line request u = Return msg ->
        outcome (NicUpdateView E request w)
        = Return (PyResponse (basic_challenge realm "badauth")))
  /\ (forall auth u p msg,
        request.(META) !! "HTTP_AUTHORIZATION" = Some auth ->
        outcome (basic_authenticate E auth w) = Return (Some (u, p)) ->
        outcome (check_api_auth E u p w) = Return true ->
        py_in (HTTP_USER_AGENT request) (env_BAD_AGENTS E) = true ->
        badagent_line request u = Return msg ->
        outcome (NicUpdateView E request w) = Return (PyResponse (Response "badagent"))
        /\ final (NicUpdateView E request w) = w
        /\ untouched (trace (NicUpdateView E request w)) = true).
Proof.
  split; [|split].
  - intros msg Hh Hline. rewrite (NicUpdateView_noauth _ _ Hh), Hline. reflexivity.
  - intros auth u p msg Hh Hb Hc Hline.
    rewrite (NicUpdateView_credentials _ _ _ _ _ Hh Hb). cbn zeta.
    rewrite Hc, Hline. reflexivity.
  - intros auth u p msg Hh Hb Hc Hbad Hline.
    rewrite (NicUpdateView_credentials _ _ _ _ _ Hh Hb). cbn zeta.
    rewrite Hc, Hbad, Hline.
    repeat split. apply check_api_auth_trace_untouched. reflexivity.
Qed.

(** The body [badagent] is only given to a request whose header decoded to
    credentials that [check_api_auth] accepted. *)
Lemma badagent_only_after_auth request w x :
  outcome (NicUpdateView E request w) = Return x ->
  has_body "badagent" x ->
  exists auth u p,
    request.(META) !! "HTTP_AUTHORIZATION" = Some auth
    /\ outcome (basic_authenticate E auth w) = Return (Some (u, p))
    /\ outcome (check_api_auth E u p w) = Return true.
Proof.
  intros Hx (r & -> & Hbody).
  destruct (request.(META) !! "HTTP_AUTHORIZATION") as [auth|] eqn:Hh.
  2:{ rewrite (NicUpdateView_noauth _ _ Hh) in Hx.
      destruct (noauth_line request); [|discriminate].
      cbn in Hx. injection Hx as <-. discriminate. }
  destruct (outcome (basic_authenticate E auth w)) as [[[u p]|]|e] eqn:Hb.
  - exists auth, u, p. split; [reflexivity|]. split; [exact Hb|].
    rewrite (NicUpdateView_credentials _ _ _ _ _ Hh Hb) in Hx. cbn zeta in Hx.
    destruct (outcome (check_api_auth E u p w)) as [[|]|e] eqn:Hc.
    + reflexivity.
    + destruct (badauth_line request u); [|discriminate].
      cbn in Hx. injection Hx as <-. discriminate.
    + discriminate.
  - rewrite (NicUpdateView_none _ _ _ Hh Hb) in Hx. discriminate.
  - rewrite (NicUpdateView_undecoded _ _ _ _ Hh Hb) in Hx. discriminate.
Qed.



(** A string without the separator is not split. *)
Lemma split_once_absent sep s :
  ~ In sep (list_ascii_of_string s) -> PyString.split_once sep s = None.
Proof.
  induction s as [|c s IH]; cbn; intros Hnot; [reflexivity|].
  destruct (Ascii.eqb c sep) eqn:Hc.
  - apply Ascii.eqb_eq in Hc. exfalso. apply Hnot. left. exact Hc.
  - rewrite IH; [reflexivity|]. intros Hin. apply Hnot. right. exact Hin.
Qed.

(** C2, as the code has it: for a header of the form [scheme payload],
    [basic_authenticate] returns no credentials ([None]) when the scheme is
    not [basic] in any case; when the scheme is [basic] and the codec
    rejects the payload, [binascii.Error] leaves [NicUpdateView]; when the
    decoded payload holds no colon, [ValueError] leaves [NicUpdateView].
    In both cases the view produces no response, consults nothing and logs
    nothing. *)
Theorem C2_undecodable_header_raises request w auth authmeth payload :
  request.(META) !! "HTTP_AUTHORIZATION" = Some auth ->
  PyString.split1 " " auth = [authmeth; payload] ->
  (PyString.lower authmeth <> "basic" ->
   basic_authenticate E auth w = (Return None, w, []))
  /\ (PyString.lower authmeth = "basic" ->
      env_b64decode E (PyString.strip payload) = None ->
      NicUpdateView E request w = (Raise binascii_Error, w, []))
  /\ (forall d,
        PyString.lower authmeth = "basic" ->
        env_b64decode E (PyString.strip payload) = Some d ->
        ~ In ":"%char (list_ascii_of_string d) ->
        NicUpdateView E request w = (Raise ValueError, w, [])).
Proof.
  intros Hh Hsplit.
  pose proof (basic_authenticate_cases E auth w) as Hcases. rewrite Hsplit in Hcases.
  split; [|split].
  - intros Hne. rewrite basic_authenticate_pure, Hcases.
    destruct (String.eqb (PyString.lower authmeth) "basic") eqn:Heq; [|reflexivity].
    apply String.eqb_eq in Heq. contradiction.
  - intros Heq Hdec. apply (NicUpdateView_undecoded _ _ _ _ Hh).
    rewrite Hcases, Heq, Hdec. reflexivity.
  - intros d Heq Hdec Hcolon. apply (NicUpdateView_undecoded _ _ _ _ Hh).
    rewrite Hcases, Heq, Hdec. unfold PyString.split1.
    rewrite (split_once_absent _ _ Hcolon). reflexivity.
Qed.

End Handlers.

(** ** The handlers on the concrete world *)

(** C1, at a request the code can receive: the credentials of
    [foo.example.com] sent with [hostname=bar.example.com] (no record) or
    [hostname=dup.example.com] (two records), and the logged-in owner of one
    of the two [dup.example.com] records.  Each time the dispatcher stops
    after its lookup, and the view hands the Python value [False] to the
    framework: not a response object, so no body [nohost]. *)
Theorem C1_not_found_returns_False :
  NicUpdateView Demo.env Demo.req_unregistered Demo.w0
  = (Return PyFalse, Demo.w0,
     [CallFilter "foo.example.com" None; CallFilter "bar.example.com" None])
  /\ NicUpdateView Demo.env Demo.req_duplicate Demo.w0
     = (Return PyFalse, Demo.w0,
        [CallFilter "foo.example.com" None; CallFilter "dup.example.com" None;
         Log ERROR "fqdn dup.example.com has multiple entries"])
  /\ AuthorizedNicUpdateView Demo.env Demo.req_session_duplicate Demo.w0
     = (Return PyFalse, Demo.w0,
        [CallFilter "dup.example.com" (Some Demo.alice);
         CallFilter "dup.example.com" None;
         Log ERROR "fqdn dup.example.com has multiple entries"])
  /\ ~ has_body "nohost" PyFalse.
Proof.
  split; [vm_compute; reflexivity|].
  split; [vm_compute; reflexivity|].
  split; [vm_compute; reflexivity|].
  intros (r & Hr & _). discriminate.
Qed.

(** C2 fails on the code: a header with another scheme, one with a payload
    that is not base64 and one whose payload decodes to [foo] each make
    [NicUpdateView] raise; none is answered with a 401 challenge. *)
Lemma C2_counterexample :
  (PyString.lower "Digest" <> "basic"
   /\ env_b64decode Demo.env "Zm9" = None
   /\ env_b64decode Demo.env "Zm9v" = Some "foo")
  /\ (NicUpdateView Demo.env Demo.req_digest Demo.w0 = (Raise TypeError, Demo.w0, [])
      /\ NicUpdateView Demo.env Demo.req_badpadding Demo.w0
         = (Raise binascii_Error, Demo.w0, [])
      /\ NicUpdateView Demo.env Demo.req_nocolon Demo.w0
         = (Raise ValueError, Demo.w0, []))
  /\ Forall (fun request =>
               ~ exists x body,
                   outcome (NicUpdateView Demo.env request Demo.w0) = Return x
                   /\ is_challenge body x)
       [Demo.req_digest; Demo.req_badpadding; Demo.req_nocolon].
Proof.
  split; [|split].
  - split; [discriminate|]. split; vm_compute; reflexivity.
  - repeat split; vm_compute; reflexivity.
  - repeat constructor; intros (x & body & Hx & _); vm_compute in Hx; discriminate.
Qed.

(** The three headers again: what [basic_authenticate] and the view do with
    each. *)
Lemma C2_witness :
  (Demo.req_digest.(META) !! "HTTP_AUTHORIZATION" = Some "Digest Zm9v"
   /\ PyString.split1 " " "Digest Zm9v" = ["Digest"; "Zm9v"]
   /\ PyString.lower "Digest" <> "basic")
  /\ basic_authenticate Demo.env "Digest Zm9v" Demo.w0 = (Return None, Demo.w0, [])
  /\ (Demo.req_badpadding.(META) !! "HTTP_AUTHORIZATION" = Some "Basic Zm9"
      /\ PyString.split1 " " "Basic Zm9" = ["Basic"; "Zm9"]
      /\ PyString.lower "Basic" = "basic"
      /\ env_b64decode Demo.env (PyString.strip "Zm9") = None)
  /\ NicUpdateView Demo.env Demo.req_badpadding Demo.w0
     = (Raise binascii_Error, Demo.w0, [])
  /\ (Demo.req_nocolon.(META) !! "HTTP_AUTHORIZATION" = Some "Basic Zm9v"
      /\ PyString.split1 " " "Basic Zm9v" = ["Basic"; "Zm9v"]
      /\ env_b64decode Demo.env (PyString.strip "Zm9v") = Some "foo"
      /\ ~ In ":"%char (list_ascii_of_string "foo"))
  /\ NicUpdateView Demo.env Demo.req_nocolon Demo.w0 = (Raise ValueError, Demo.w0, []).
Proof.
  assert (Hfoo : ~ In ":"%char (list_ascii_of_string "foo")).
  { cbn. intros [H|[H|[H|[]]]]; discriminate. }
  split; [split; [vm_compute; reflexivity | split; [reflexivity | discriminate]]|].
  split.
  { destruct (C2_undecodable_header_raises Demo.env Demo.req_digest Demo.w0
                "Digest Zm9v" "Digest" "Zm9v") as (Hnone & _ & _);
      [vm_compute; reflexivity | reflexivity |].
    apply Hnone. discriminate. }
  split; [repeat split; vm_compute; reflexivity|].
  split.
  { destruct (C2_undecodable_header_raises Demo.env Demo.req_badpadding Demo.w0
                "Basic Zm9" "Basic" "Zm9") as (_ & Hcodec & _);
      [vm_compute; reflexivity | reflexivity |].
    apply Hcodec; vm_compute; reflexivity. }
  split; [split; [vm_compute; reflexivity | split; [reflexivity | split;
          [vm_compute; reflexivity | exact Hfoo]]]|].
  destruct (C2_undecodable_header_raises Demo.env Demo.req_nocolon Demo.w0
              "Basic Zm9v" "Basic" "Zm9v") as (_ & _ & Hcolon);
    [vm_compute; reflexivity | reflexivity |].
  apply (Hcolon "foo"); [reflexivity | vm_compute; reflexivity | exact Hfoo].
Defined.

(** C5, at requests the code can receive: [hostname=foo.example.com] (a
    [unicode] object) from a user agent with a byte above 127 and without
    header, and the same parameter with credentials whose user name holds
    such bytes and which [check_api_auth] rejects.  The log line before
    each [return] (lines 172 and 176) mixes the [unicode] host name with
    these byte strings and raises [UnicodeDecodeError]: no challenge comes
    back.  Without the [hostname] parameter the same user agent gets the
    challenge [noauth]. *)
Theorem C5_log_line_raises_before_challenge :
  (DemoNonAscii.req_noauth.(META) !! "HTTP_AUTHORIZATION" = None
   /\ NicUpdateView Demo.env DemoNonAscii.req_noauth Demo.w0
      = (Raise UnicodeDecodeError, Demo.w0, []))
  /\ (DemoNonAscii.req_badauth.(META) !! "HTTP_AUTHORIZATION" = Some DemoNonAscii.bad_header
      /\ outcome (basic_authenticate Demo.env DemoNonAscii.bad_header Demo.w0)
         = Return (Some (DemoNonAscii.bad_username, "x"))
      /\ outcome (check_api_auth Demo.env DemoNonAscii.bad_username "x" Demo.w0)
         = Return false
      /\ NicUpdateView Demo.env DemoNonAscii.req_badauth Demo.w0
         = (Raise UnicodeDecodeError, Demo.w0,
            [CallFilter DemoNonAscii.bad_username None]))
  /\ outcome (NicUpdateView Demo.env DemoNonAscii.req_noauth_plain Demo.w0)
     = Return (PyResponse (basic_challenge realm "noauth")).
Proof.
  repeat split; vm_compute; reflexivity.
Qed.

(** C9, at a request the code can receive: the user agent [BadBot/1.0] of
    [BAD_AGENTS], [hostname=foo.example.com] and credentials that
    [check_api_auth] rejects, with bytes above 127 in the user name.  The
    log line of line 176 raises [UnicodeDecodeError] before the challenge
    [badauth] is returned. *)
Theorem C9_log_line_raises_for_bad_agent :
  py_in (HTTP_USER_AGENT DemoNonAscii.req_badagent_badauth) (env_BAD_AGENTS Demo.env)
  = true
  /\ DemoNonAscii.req_badagent_badauth.(META) !! "HTTP_AUTHORIZATION"
     = Some DemoNonAscii.bad_header
  /\ outcome (basic_authenticate Demo.env DemoNonAscii.bad_header Demo.w0)
     = Return (Some (DemoNonAscii.bad_username, "x"))
  /\ outcome (check_api_auth Demo.env DemoNonAscii.bad_username "x" Demo.w0)
     = Return false
  /\ NicUpdateView Demo.env DemoNonAscii.req_badagent_badauth Demo.w0
     = (Raise UnicodeDecodeError, Demo.w0,
        [CallFilter DemoNonAscii.bad_username None]).
Proof.
  repeat split; vm_compute; reflexivity.
Qed.




(** ** More on the dispatcher and the handlers *)

Section Outcomes.

Context {W : Type} (E : Env W).

(** The run of the dispatcher, by what [str], the directory, the classifier,
    the DNS primitive and the log line answer. *)
Lemma _update_run hostname ipaddr agent w :
  _update E hostname ipaddr agent w =
    match str ipaddr with
    | Raise e => (Raise e, w, [])
    | Return s =>
        match env_filter_by_fqdn E w (text hostname) None with
        | [] => (Return PyFalse, w, [CallFilter (text hostname) None])
        | [h] =>
            match env_check_ip E s with
            | None =>
                (Raise InvalidIPError, w,
                 [CallFilter (text hostname) None; CallCheckIp s])
            | Some k =>
                match env_update E (text hostname) s (env_poke E h k w) with
                | (Return _, w2) =>
                    match good_line hostname s agent with
                    | Return msg =>
                        (Return (PyResponse (Response ("good " +:+ s))), w2,
                         [CallFilter (text hostname) None; CallCheckIp s; CallPoke h k;
                          CallUpdate (text hostname) s; Log INFO msg])
                    | Raise e =>
                        (Raise e, w2,
                         [CallFilter (text hostname) None; CallCheckIp s; CallPoke h k;
                          CallUpdate (text hostname) s])
                    end
                | (Raise SameIpError, w2) =>
                    match nochg_line hostname s agent with
                    | Return msg =>
                        (Return (PyResponse (Response ("nochg " +:+ s))), w2,
                         [CallFilter (text hostname) None; CallCheckIp s; CallPoke h k;
                          CallUpdate (text hostname) s; Log WARNING msg])
                    | Raise e =>
                        (Raise e, w2,
                         [CallFilter (text hostname) None; CallCheckIp s; CallPoke h k;
                          CallUpdate (text hostname) s])
                    end
                | (Raise e, w2) =>
                    (Raise e, w2,
                     [CallFilter (text hostname) None; CallCheckIp s; CallPoke h k;
                      CallUpdate (text hostname) s])
                end
            end
        | _ =>
            (Return PyFalse, w,
             [CallFilter (text hostname) None;
              Log ERROR ("fqdn " +:+ text hostname +:+ " has multiple entries")])
        end
    end.
Proof.
  destruct (str ipaddr) as [s|e] eqn:Hs; [|apply _update_str_raises; exact Hs].
  destruct (env_filter_by_fqdn E w (text hostname) None) as [|h [|h' l]] eqn:Hf.
  - rewrite (_update_not_unique E _ _ _ _ _ Hs); rewrite Hf; [reflexivity | discriminate].
  - destruct (env_check_ip E s) as [k|] eqn:Hk.
    + rewrite (_update_unique E _ _ _ _ _ _ _ Hs Hf Hk). cbn zeta.
      destruct (env_update E (text hostname) s (env_poke E h k w)) as [[u|e] w2];
        cbn [fst snd].
      * destruct (good_line hostname s agent); reflexivity.
      * destruct e; reflexivity.
    + apply (_update_invalid_ip E _ _ _ _ _ Hs); [rewrite Hf; reflexivity | exact Hk].
  - rewrite (_update_not_unique E _ _ _ _ _ Hs); rewrite Hf; [reflexivity | discriminate].
Qed.

(** A run of the dispatcher in which [poke] or the DNS primitive was called,
    or which changed the world, had one record for the host name. *)
Lemma _update_acted hostname ipaddr agent w :
  acted (trace (_update E hostname ipaddr agent w)) = true
  \/ final (_update E hostname ipaddr agent w) <> w ->
  length (env_filter_by_fqdn E w (text hostname) None) = 1.
Proof.
  rewrite _update_run. unfold final, trace.
  destruct (str ipaddr) as [s|e]; [|cbn; intros [?|?]; congruence].
  destruct (env_filter_by_fqdn E w (text hostname) None) as [|h [|h' l]];
    cbn; intros [?|?]; congruence.
Qed.

(** What the dispatcher returns is [False] or a [good]/[nochg] line. *)
Lemma _update_returns hostname ipaddr agent w x :
  outcome (_update E hostname ipaddr agent w) = Return x ->
  x = PyFalse \/ is_update_line x.
Proof.
  rewrite _update_run. unfold outcome.
  destruct (str ipaddr) as [s|e]; [|discriminate].
  destruct (env_filter_by_fqdn E w (text hostname) None) as [|h [|h' l]];
    try (cbn; intros [= <-]; left; reflexivity).
  destruct (env_check_ip E s) as [k|]; [|discriminate].
  destruct (env_update E (text hostname) s (env_poke E h k w)) as [[u|e] w2].
  - destruct (good_line hostname s agent); cbn; [|discriminate].
    intros [= <-]. right. exists s. left. reflexivity.
  - destruct e; cbn; try discriminate.
    destruct (nochg_line hostname s agent); cbn; [|discriminate].
    intros [= <-]. right. exists s. right. reflexivity.
Qed.

Lemma is_update_line_body x body :
  is_update_line x -> has_body body x ->
  exists ip, body = "good " +:+ ip \/ body = "nochg " +:+ ip.
Proof.
  intros (ip & [-> | ->]) (r & [= <-] & <-); exists ip; [left | right]; reflexivity.
Qed.

Lemma check_api_auth_quiet u p w tl :
  acted tl = false -> acted (trace (check_api_auth E u p w) ++ tl) = false.
Proof.
  intros Htl. rewrite check_api_auth_run. unfold trace. cbn [snd].
  destruct (1 <? _)%nat; cbn; exact Htl.
Qed.

(** X1: [NicUpdateView] calls [poke] or the DNS primitive, or changes the
    world, only for a request whose header decoded to credentials that
    [check_api_auth] accepted and whose user agent is not in [BAD_AGENTS]. *)
Theorem NicUpdateView_acts_only_authenticated request w :
  acted (trace (NicUpdateView E request w)) = true
  \/ final (NicUpdateView E request w) <> w ->
  exists auth u p,
    request.(META) !! "HTTP_AUTHORIZATION" = Some auth
    /\ outcome (basic_authenticate E auth w) = Return (Some (u, p))
    /\ outcome (check_api_auth E u p w) = Return true
    /\ py_in (HTTP_USER_AGENT request) (env_BAD_AGENTS E) = false
    /\ length (env_filter_by_fqdn E w (target request u) None) = 1.
Proof.
  intros Hact.
  destruct (request.(META) !! "HTTP_AUTHORIZATION") as [auth|] eqn:Hh.
  2:{ rewrite (NicUpdateView_noauth _ _ _ Hh) in Hact.
      destruct (noauth_line request);
        destruct Hact as [Hact|Hact]; first [discriminate | contradiction]. }
  destruct (outcome (basic_authenticate E auth w)) as [[[u p]|]|e] eqn:Hb.
  2:{ rewrite (NicUpdateView_none _ _ _ _ Hh Hb) in Hact.
      destruct Hact as [Hact|Hact]; [discriminate | contradiction]. }
  2:{ rewrite (NicUpdateView_undecoded _ _ _ _ _ Hh Hb) in Hact.
      destruct Hact as [Hact|Hact]; [discriminate | contradiction]. }
  exists auth, u, p. split; [reflexivity|]. split; [exact Hb|].
  rewrite (NicUpdateView_credentials _ _ _ _ _ _ Hh Hb) in Hact. cbn zeta in Hact.
  pose proof (check_api_auth_quiet u p w [] eq_refl) as Hnil.
  rewrite app_nil_r in Hnil.
  pose proof (check_api_auth_quiet u p w) as Hquiet.
  pose proof (check_api_auth_run E u p w) as Hrun.
  destruct (outcome (check_api_auth E u p w)) as [[|]|e] eqn:Hc.
  - split; [reflexivity|].
    destruct (py_in (HTTP_USER_AGENT request) (env_BAD_AGENTS E)) eqn:Hbad.
    + exfalso. destruct (badagent_line request u);
        unfold final, trace in Hact; cbn [fst snd] in Hact;
        (destruct Hact as [Hact|Hact]; [|contradiction]);
        fold (trace (check_api_auth E u p w)) in Hact.
      * rewrite Hquiet in Hact; [discriminate | reflexivity].
      * congruence.
    + split; [reflexivity|]. rewrite <- target_text_text.
      apply (_update_acted _ (claimed request) (HTTP_USER_AGENT request)).
      unfold final at 1, trace at 1 in Hact. cbn [fst snd] in Hact.
      destruct Hact as [Hact|Hact]; [|right; exact Hact].
      left. unfold acted in Hact |- *. rewrite existsb_app in Hact.
      apply orb_true_iff in Hact. destruct Hact as [Hact|Hact]; [|exact Hact].
      exfalso. fold (acted (trace (check_api_auth E u p w))) in Hact. congruence.
  - exfalso. destruct (badauth_line request u);
      unfold final, trace in Hact; cbn [fst snd] in Hact;
      (destruct Hact as [Hact|Hact]; [|contradiction]);
      fold (trace (check_api_auth E u p w)) in Hact.
    + rewrite Hquiet in Hact; [discriminate | reflexivity].
    + congruence.
  - exfalso. rewrite Hrun in Hc. discriminate.
Qed.

(** X2: [AuthorizedNicUpdateView] calls [poke] or the DNS primitive, or
    changes the world, only when the [hostname] parameter is there, the
    logged-in user owns exactly one record of that name and the name has
    exactly one record in all. *)
Theorem AuthorizedNicUpdateView_acts_only_owned request w :
  acted (trace (AuthorizedNicUpdateView E request w)) = true
  \/ final (AuthorizedNicUpdateView E request w) <> w ->
  exists hostname,
    QueryDict_get request.(GET) "hostname" = Some hostname
    /\ length (env_filter_by_fqdn E w hostname (Some request.(user))) = 1
    /\ length (env_filter_by_fqdn E w hostname None) = 1.
Proof.
  intros Hact.
  destruct (QueryDict_get request.(GET) "hostname") as [hostname|] eqn:Hh.
  2:{ unfold AuthorizedNicUpdateView in Hact. rewrite Hh in Hact.
      destruct Hact as [Hact|Hact]; [discriminate | contradiction]. }
  exists hostname. split; [reflexivity|].
  destruct (Nat.eq_dec (length (env_filter_by_fqdn E w hostname (Some request.(user)))) 1)
    as [Hn|Hn].
  - split; [exact Hn|].
    rewrite (AuthorizedNicUpdateView_owned _ _ _ _ Hh Hn) in Hact. cbn zeta in Hact.
    unfold final at 1, trace at 1 in Hact. cbn [fst snd] in Hact.
    change hostname with (text (Unicode hostname)).
    eapply _update_acted. destruct Hact as [Hact|Hact]; [left | right; exact Hact].
    cbn in Hact. exact Hact.
  - exfalso. rewrite (AuthorizedNicUpdateView_not_owned _ _ _ _ Hh Hn) in Hact.
    unfold final, trace in Hact. cbn [fst snd] in Hact.
    destruct Hact as [Hact|Hact]; [|contradiction].
    destruct (1 <? _)%nat; discriminate.
Qed.

(** X3: whatever [NicUpdateView] returns is the Python value [False], one
    of the two challenges, the body [badagent], or a [good]/[nochg] line;
    it is never a response with body [nohost]. *)
Theorem NicUpdateView_vocabulary request w x :
  outcome (NicUpdateView E request w) = Return x ->
  (x = PyFalse
   \/ is_challenge "noauth" x
   \/ is_challenge "badauth" x
   \/ x = PyResponse (Response "badagent")
   \/ is_update_line x)
  /\ ~ has_body "nohost" x.
Proof.
  intros Hx.
  assert (Hvoc : x = PyFalse
                 \/ is_challenge "noauth" x
                 \/ is_challenge "badauth" x
                 \/ x = PyResponse (Response "badagent")
                 \/ is_update_line x).
  { destruct (request.(META) !! "HTTP_AUTHORIZATION") as [auth|] eqn:Hh.
    2:{ rewrite (NicUpdateView_noauth _ _ _ Hh) in Hx.
        destruct (noauth_line request); [|discriminate].
        injection Hx as <-. right; left. apply basic_challenge_is_challenge. }
    destruct (outcome (basic_authenticate E auth w)) as [[[u p]|]|e] eqn:Hb.
    2:{ rewrite (NicUpdateView_none _ _ _ _ Hh Hb) in Hx. discriminate. }
    2:{ rewrite (NicUpdateView_undecoded _ _ _ _ _ Hh Hb) in Hx. discriminate. }
    rewrite (NicUpdateView_credentials _ _ _ _ _ _ Hh Hb) in Hx. cbn zeta in Hx.
    destruct (outcome (check_api_auth E u p w)) as [[|]|e] eqn:Hc.
    - destruct (py_in (HTTP_USER_AGENT request) (env_BAD_AGENTS E)).
      + destruct (badagent_line request u); [|discriminate].
        injection Hx as <-. right; right; right; left. reflexivity.
      + unfold outcome at 1 in Hx. cbn [fst] in Hx.
        destruct (_update_returns _ _ _ _ _ Hx) as [-> | Hline];
          [left; reflexivity | right; right; right; right; exact Hline].
    - destruct (badauth_line request u); [|discriminate].
      injection Hx as <-. right; right; left. apply basic_challenge_is_challenge.
    - discriminate. }
  split; [exact Hvoc|].
  intros Hno.
  destruct Hvoc as [-> | [Hc | [Hc | [-> | Hline]]]].
  - destruct Hno as (r & Hr & _). discriminate.
  - destruct Hc as (r & -> & _ & Hbody & _), Hno as (r' & [= <-] & Hbody').
    rewrite Hbody in Hbody'. discriminate.
  - destruct Hc as (r & -> & _ & Hbody & _), Hno as (r' & [= <-] & Hbody').
    rewrite Hbody in Hbody'. discriminate.
  - destruct Hno as (r' & [= <-] & Hbody'). discriminate.
  - destruct (is_update_line_body _ _ Hline Hno) as (ip & [Hb | Hb]); discriminate.
Qed.


(** X5: the host that [NicUpdateView] updates is the one the [hostname]
    parameter names, whichever host the accepted credentials belong to:
    with credentials of [u] and [hostname=name], the record confirmed by
    [poke] is the record of [name] and the DNS primitive is called for
    [name]. *)
Theorem NicUpdateView_hostname_overrides_username request w auth u p name s h k :
  request.(META) !! "HTTP_AUTHORIZATION" = Some auth ->
  outcome (basic_authenticate E auth w) = Return (Some (u, p)) ->
  outcome (check_api_auth E u p w) = Return true ->
  py_in (HTTP_USER_AGENT request) (env_BAD_AGENTS E) = false ->
  QueryDict_get request.(GET) "hostname" = Some name ->
  str (claimed request) = Return s ->
  env_filter_by_fqdn E w name None = [h] ->
  env_check_ip E s = Some k ->
  pokes (trace (NicUpdateView E request w)) = [(h, k)]
  /\ In (CallUpdate name s) (trace (NicUpdateView E request w))
  /\ (forall name' s', In (CallUpdate name' s') (trace (NicUpdateView E request w)) ->
                       name' = name /\ s' = s)
  /\ final (NicUpdateView E request w)
     = (env_update E name s (env_poke E h k w)).2.
Proof.
  intros Hh Hb Hc Hbad Hname Hs Hf Hk.
  rewrite (NicUpdateView_credentials _ _ _ _ _ _ Hh Hb). cbn zeta.
  rewrite Hc, Hbad. unfold target_text. rewrite Hname.
  change name with (text (Unicode name)) in Hf.
  destruct (_update_unique_shape E _ _ (HTTP_USER_AGENT request) _ _ _ _ Hs Hf Hk)
    as (tl & Htrace & Hlog & Hfinal).
  rewrite Htrace, Hfinal, check_api_auth_run.
  unfold final, trace. cbn [fst snd text].
  pose proof (log_only_no_poke _ Hlog) as Hpokes.
  pose proof (untouched_no_update _ name s (log_only_no_update _ Hlog)) as Hno.
  assert (Hnone : forall name' s', ~ In (CallUpdate name' s') tl).
  { intros name' s'. apply untouched_no_update, log_only_no_update, Hlog. }
  split; [|split; [|split]].
  - destruct (1 <? _)%nat; cbn; rewrite Hpokes; reflexivity.
  - apply in_or_app. right. right; right; right; left. reflexivity.
  - intros name' s' Hin. apply in_app_or in Hin. destruct Hin as [Hin|Hin].
    + exfalso. destruct (1 <? _)%nat;
        repeat (destruct Hin as [Hin|Hin]; try discriminate); contradiction.
    + destruct Hin as [Hin|[Hin|[Hin|[Hin|Hin]]]]; try discriminate.
      * injection Hin as <- <-. split; reflexivity.
      * exfalso. exact (Hnone _ _ Hin).
  - reflexivity.
Qed.

(** X6: with accepted credentials, a user agent outside [BAD_AGENTS] and one
    record for the host name, an address the classifier rejects makes
    [NicUpdateView] raise [InvalidIPError]: no response comes back, [poke]
    and the DNS primitive are not called and the world is as it was. *)
Theorem NicUpdateView_invalid_address request w auth u p s :
  request.(META) !! "HTTP_AUTHORIZATION" = Some auth ->
  outcome (basic_authenticate E auth w) = Return (Some (u, p)) ->
  outcome (check_api_auth E u p w) = Return true ->
  py_in (HTTP_USER_AGENT request) (env_BAD_AGENTS E) = false ->
  str (claimed request) = Return s ->
  length (env_filter_by_fqdn E w (target request u) None) = 1 ->
  env_check_ip E s = None ->
  outcome (NicUpdateView E request w) = Raise InvalidIPError
  /\ final (NicUpdateView E request w) = w
  /\ acted (trace (NicUpdateView E request w)) = false
  /\ In (CallCheckIp s) (trace (NicUpdateView E request w)).
Proof.
  intros Hh Hb Hc Hbad Hs Hn Hk.
  rewrite (NicUpdateView_credentials _ _ _ _ _ _ Hh Hb). cbn zeta.
  rewrite Hc, Hbad. rewrite <- target_text_text in Hn.
  rewrite (_update_invalid_ip E _ _ _ _ _ Hs Hn Hk), check_api_auth_run.
  unfold final, trace, outcome. cbn [fst snd].
  destruct (1 <? _)%nat; cbn; repeat split; tauto.
Qed.

(** X7: a [myip] parameter with a code point above 127 makes [str] raise in
    the dispatcher: [NicUpdateView] (credentials accepted, user agent
    outside [BAD_AGENTS]) raises [UnicodeEncodeError] with nothing but the
    lookup of the credentials in its trace. *)
Theorem NicUpdateView_non_ascii_myip request w auth u p v :
  request.(META) !! "HTTP_AUTHORIZATION" = Some auth ->
  outcome (basic_authenticate E auth w) = Return (Some (u, p)) ->
  outcome (check_api_auth E u p w) = Return true ->
  py_in (HTTP_USER_AGENT request) (env_BAD_AGENTS E) = false ->
  QueryDict_get request.(GET) "myip" = Some v ->
  PyString.all_ascii7 v = false ->
  NicUpdateView E request w
  = (Raise UnicodeEncodeError, w, trace (check_api_auth E u p w)).
Proof.
  intros Hh Hb Hc Hbad Hip Hv.
  rewrite (NicUpdateView_credentials _ _ _ _ _ _ Hh Hb). cbn zeta.
  rewrite Hc, Hbad. unfold claimed. rewrite Hip.
  rewrite (_update_str_raises E _ _ _ _ UnicodeEncodeError).
  - unfold outcome, final, trace. cbn [fst snd]. rewrite app_nil_r. reflexivity.
  - cbn. rewrite Hv. reflexivity.
Qed.

(** X8: without [myip] parameter and without [REMOTE_ADDR] in the
    environment, the address is [None] and [str] makes the text [None] of
    it: [NicUpdateView] (credentials accepted, user agent outside
    [BAD_AGENTS]) runs as the dispatcher does on the byte string [None]. *)
Theorem NicUpdateView_no_address_at_all request w auth u p :
  request.(META) !! "HTTP_AUTHORIZATION" = Some auth ->
  outcome (basic_authenticate E auth w) = Return (Some (u, p)) ->
  outcome (check_api_auth E u p w) = Return true ->
  py_in (HTTP_USER_AGENT request) (env_BAD_AGENTS E) = false ->
  QueryDict_get request.(GET) "myip" = None ->
  request.(META) !! "REMOTE_ADDR" = None ->
  NicUpdateView E request w
  = (outcome (_update E (target_text request u) (PyStr "None")
                (HTTP_USER_AGENT request) w),
     final (_update E (target_text request u) (PyStr "None")
              (HTTP_USER_AGENT request) w),
     trace (check_api_auth E u p w)
     ++ trace (_update E (target_text request u) (PyStr "None")
                 (HTTP_USER_AGENT request) w))
  /\ (length (env_filter_by_fqdn E w (target request u) None) = 1 ->
      In (CallCheckIp "None") (trace (NicUpdateView E request w))).
Proof.
  intros Hh Hb Hc Hbad Hip Hremote.
  rewrite (NicUpdateView_credentials _ _ _ _ _ _ Hh Hb). cbn zeta.
  rewrite Hc, Hbad. unfold claimed, REMOTE_ADDR. rewrite Hip, Hremote.
  rewrite !_update_run. cbn [str].
  split; [reflexivity|].
  rewrite <- target_text_text.
  intros Hn. unfold trace at 1. cbn [snd]. apply in_or_app. right.
  destruct (env_filter_by_fqdn E w (text (target_text request u)) None)
    as [|h [|h' l]]; try discriminate.
  destruct (env_check_ip E "None") as [k|]; [|right; left; reflexivity].
  destruct (env_update E (text (target_text request u)) "None" (env_poke E h k w))
    as [[[]|e] w2].
  - destruct (good_line _ _ _); right; left; reflexivity.
  - destruct e; try (right; left; reflexivity).
    destruct (nochg_line _ _ _); right; left; reflexivity.
Qed.


End Outcomes.

(** ** More on the verifiers and the codec *)

Section Codec.

Context {W : Type} (E : Env W).

(** A string that starts with a text free of the separator is split right
    after that text. *)
Lemma split_once_first sep a b :
  ~ In sep (list_ascii_of_string a) ->
  PyString.split_once sep (a +:+ String sep b) = Some (a, b).
Proof.
  assert (Hcons : forall c rest,
             PyString.split_once sep (String c rest)
             = if Ascii.eqb c sep then Some (EmptyString, rest)
               else match PyString.split_once sep rest with
                    | Some (x, y) => Some (String c x, y)
                    | None => None
                    end) by reflexivity.
  induction a as [|c a IH]; intros Hnot.
  - change ("" +:+ String sep b) with (String sep b).
    rewrite Hcons, Ascii.eqb_refl. reflexivity.
  - change (String c a +:+ String sep b) with (String c (a +:+ String sep b)).
    rewrite Hcons. destruct (Ascii.eqb c sep) eqn:Hc.
    + apply Ascii.eqb_eq in Hc. exfalso. apply Hnot. left. exact Hc.
    + rewrite IH; [reflexivity|]. intros Hin. apply Hnot. right. exact Hin.
Qed.

(** X9: [check_session_auth] returns [True] exactly when the user owns
    exactly one record of the name; it never raises, leaves the world as it
    was, and its one lookup is restricted to that user. *)
Theorem check_session_auth_iff u hostname w :
  (outcome (check_session_auth E u hostname w) = Return true
   <-> length (env_filter_by_fqdn E w hostname (Some u)) = 1)
  /\ (outcome (check_session_auth E u hostname w) = Return false
      <-> length (env_filter_by_fqdn E w hostname (Some u)) <> 1)
  /\ final (check_session_auth E u hostname w) = w
  /\ lookups (trace (check_session_auth E u hostname w)) = [(hostname, Some u)].
Proof.
  rewrite check_session_auth_run. unfold outcome, final, trace. cbn [fst snd].
  destruct (env_filter_by_fqdn E w hostname (Some u)) as [|h [|h' l]]; cbn;
    repeat split; intros; try congruence; try discriminate; try lia.
Qed.

(** X10: the error line [fqdn ... has multiple entries] is written exactly
    when the lookup yields two or more records, in [check_api_auth], in
    [check_session_auth] and in the dispatcher. *)
Theorem duplicates_are_logged username password u hostname ipaddr agent w s :
  str ipaddr = Return s ->
  (logs_duplicate username (trace (check_api_auth E username password w))
   <-> 2 <= length (env_filter_by_fqdn E w username None))
  /\ (logs_duplicate (text hostname) (trace (check_session_auth E u (text hostname) w))
      <-> 2 <= length (env_filter_by_fqdn E w (text hostname) (Some u)))
  /\ (logs_duplicate (text hostname) (trace (_update E hostname ipaddr agent w))
      <-> 2 <= length (env_filter_by_fqdn E w (text hostname) None)).
Proof.
  intros Hs. unfold logs_duplicate.
  rewrite check_api_auth_run, check_session_auth_run, _update_run, Hs.
  unfold trace. cbn [snd].
  split; [|split].
  - destruct (env_filter_by_fqdn E w username None) as [|h [|h' l]]; cbn.
    + split; [intros [Hin|[]]; discriminate | lia].
    + split; [intros [Hin|[]]; discriminate | lia].
    + split; [intros _; lia | intros _; right; left; reflexivity].
  - destruct (env_filter_by_fqdn E w (text hostname) (Some u)) as [|h [|h' l]]; cbn.
    + split; [intros [Hin|[]]; discriminate | lia].
    + split; [intros [Hin|[]]; discriminate | lia].
    + split; [intros _; lia | intros _; right; left; reflexivity].
  - destruct (env_filter_by_fqdn E w (text hostname) None) as [|h [|h' l]];
      cbn [length snd].
    + split; [|cbn; lia]. intros [Hin|[]]; discriminate.
    + split; [|cbn; lia]. intros Hin. exfalso.
      destruct (env_check_ip E s) as [k|].
      * destruct (env_update E (text hostname) s (env_poke E h k w)) as [[[]|e] w2].
        -- destruct (good_line hostname s agent); cbn in Hin;
             repeat (destruct Hin as [Hin|Hin]; try discriminate); contradiction.
        -- destruct e; try (cbn in Hin;
             repeat (destruct Hin as [Hin|Hin]; try discriminate); contradiction).
           destruct (nochg_line hostname s agent); cbn in Hin;
             repeat (destruct Hin as [Hin|Hin]; try discriminate); contradiction.
      * cbn in Hin. repeat (destruct Hin as [Hin|Hin]; try discriminate); contradiction.
    + split; [intros _; cbn; lia|]. intros _. right; left; reflexivity.
Qed.

(** X11: a header made of a scheme that reads [basic] in any case, one
    space and a payload that decodes to [u:p] gives the credentials
    [(u, p)], where [u] is the text before the first colon: the user name
    holds no colon, the password may. *)
Theorem basic_authenticate_decodes scheme payload u p w :
  ~ In " "%char (list_ascii_of_string scheme) ->
  PyString.lower scheme = "basic" ->
  env_b64decode E (PyString.strip payload) = Some (u +:+ ":" +:+ p) ->
  ~ In ":"%char (list_ascii_of_string u) ->
  basic_authenticate E (scheme +:+ " " +:+ payload) w = (Return (Some (u, p)), w, []).
Proof.
  intros Hscheme Hlower Hdec Hu.
  rewrite basic_authenticate_pure, basic_authenticate_cases.
  unfold PyString.split1.
  change (scheme +:+ " " +:+ payload) with (scheme +:+ String " " payload).
  rewrite (split_once_first _ _ _ Hscheme), Hlower. cbn [String.eqb].
  change (String.eqb "basic" "basic") with true. cbn iota.
  rewrite Hdec.
  change (u +:+ ":" +:+ p) with (u +:+ String ":" p).
  rewrite (split_once_first _ _ _ Hu). reflexivity.
Qed.

(** X12: an [Authorization] header without a space cannot be unpacked into
    scheme and payload: [ValueError] leaves [NicUpdateView], before any
    lookup. *)
Theorem header_without_space_raises request w auth :
  request.(META) !! "HTTP_AUTHORIZATION" = Some auth ->
  ~ In " "%char (list_ascii_of_string auth) ->
  NicUpdateView E request w = (Raise ValueError, w, []).
Proof.
  intros Hh Hnot. apply (NicUpdateView_undecoded _ _ _ _ _ Hh).
  rewrite basic_authenticate_cases. unfold PyString.split1.
  rewrite (split_once_absent _ _ Hnot). reflexivity.
Qed.

End Codec.

(** ** The session endpoints *)

Section SessionProperties.

Context {W : Type} (E : Env W) (S : Sessions W).

Lemma kind_key_timestamp_ne k k' : kind_key k <> kind_key k' +:+ "_timestamp".
Proof. destruct k, k'; discriminate. Qed.

Lemma kind_key_inj k k' : kind_key k = kind_key k' -> k = k'.
Proof. destruct k, k'; intros; first [reflexivity | discriminate]. Qed.

Lemma timestamp_key_inj k k' :
  kind_key k +:+ "_timestamp" = kind_key k' +:+ "_timestamp" -> k = k'.
Proof. destruct k, k'; intros; first [reflexivity | discriminate]. Qed.

(** The entries of a session after a detection. *)
Lemma detected_lookup k a t (s : gmap string pyobj) :
  detected k a t s !! kind_key k = Some (ObjText a)
  /\ detected k a t s !! (kind_key k +:+ "_timestamp") = Some (ObjTime t)
  /\ (forall key,
        key <> kind_key k -> key <> kind_key k +:+ "_timestamp" ->
        detected k a t s !! key = s !! key).
Proof.
  unfold detected. split; [|split].
  - rewrite lookup_insert_ne; [apply lookup_insert_eq|].
    intros Heq. symmetry in Heq. exact (kind_key_timestamp_ne k k Heq).
  - apply lookup_insert_eq.
  - intros key Hk Ht. rewrite !lookup_insert_ne; [reflexivity | congruence | congruence].
Qed.

(** The run of [DetectIpView] on a connection address of family [k]. *)
Lemma DetectIpView_run request secret w a k :
  request.(META) !! "REMOTE_ADDR" = Some a ->
  env_check_ip E a = Some k ->
  DetectIpView E S request secret w
  = (Return (PyResponse {| content := ""; content_type := DEFAULT_CONTENT_TYPE S;
                           status_code := 204; headers := ∅ |}),
     session_save S secret (detected k a (clock_now S w) (session_load S w secret)) w,
     [CallCheckIp a; Log DEBUG ("detected " +:+ kind_key k +:+ ": " +:+ a)]).
Proof.
  intros Ha Hk. unfold DetectIpView, dict_getitem, check_ip, SessionStore_load,
    SessionStore_save, now, log, emit, detected.
  unfold mbind, M_bind, mret, M_ret. rewrite Ha, Hk. reflexivity.
Qed.

(** X13: on a connection address of family [k], [DetectIpView] answers 204
    with an empty body and saves, under the secret it was given, the
    session it loaded with two entries written: the address under the key
    of [k] and the time under that key followed by [_timestamp].  Every
    other entry is kept, among them the address and the time of the other
    family. *)
Theorem DetectIpView_writes_one_family request secret w a k :
  request.(META) !! "REMOTE_ADDR" = Some a ->
  env_check_ip E a = Some k ->
  exists saved,
    final (DetectIpView E S request secret w) = session_save S secret saved w
    /\ (exists r, outcome (DetectIpView E S request secret w) = Return (PyResponse r)
                  /\ r.(status_code) = 204 /\ r.(content) = "")
    /\ saved !! kind_key k = Some (ObjText a)
    /\ saved !! (kind_key k +:+ "_timestamp") = Some (ObjTime (clock_now S w))
    /\ (forall key,
          key <> kind_key k -> key <> kind_key k +:+ "_timestamp" ->
          saved !! key = session_load S w secret !! key)
    /\ (forall k',
          k' <> k ->
          saved !! kind_key k' = session_load S w secret !! kind_key k'
          /\ saved !! (kind_key k' +:+ "_timestamp")
             = session_load S w secret !! (kind_key k' +:+ "_timestamp")).
Proof.
  intros Ha Hk. rewrite (DetectIpView_run _ _ _ _ _ Ha Hk).
  exists (detected k a (clock_now S w) (session_load S w secret)).
  destruct (detected_lookup k a (clock_now S w) (session_load S w secret))
    as (Haddr & Htime & Hrest).
  split; [reflexivity|]. split; [eexists; repeat split|].
  split; [exact Haddr|]. split; [exact Htime|]. split; [exact Hrest|].
  intros k' Hne. split; apply Hrest.
  - intros Heq. apply Hne. exact (kind_key_inj _ _ Heq).
  - apply kind_key_timestamp_ne.
  - intros Heq. symmetry in Heq. exact (kind_key_timestamp_ne _ _ Heq).
  - intros Heq. apply Hne. exact (timestamp_key_inj _ _ Heq).
Qed.

(** X14: [DetectIpView] saves no session when it cannot classify: without
    [REMOTE_ADDR] it raises [KeyError] before the classifier is called, and
    on an address the classifier rejects it raises [InvalidIPError]; the
    world is as it was. *)
Theorem DetectIpView_saves_nothing_on_failure request secret w :
  (request.(META) !! "REMOTE_ADDR" = None ->
   DetectIpView E S request secret w = (Raise KeyError, w, []))
  /\ (forall a,
        request.(META) !! "REMOTE_ADDR" = Some a ->
        env_check_ip E a = None ->
        DetectIpView E S request secret w = (Raise InvalidIPError, w, [CallCheckIp a])).
Proof.
  split.
  - intros Ha. unfold DetectIpView, dict_getitem.
    unfold mbind, M_bind. rewrite Ha. reflexivity.
  - intros a Ha Hk. unfold DetectIpView, dict_getitem, check_ip.
    unfold mbind, M_bind, mret, M_ret. rewrite Ha, Hk. reflexivity.
Qed.

(** The run of [AjaxGetIps], by the two entries it reads. *)
Lemma AjaxGetIps_run (session : gmap string pyobj) w :
  AjaxGetIps S session w =
    match session !! "ipv4", session !! "ipv6" with
    | Some v4, Some v6 =>
        let response : gmap string pyobj := <["ipv6" := v6]> (<["ipv4" := v4]> ∅) in
        (match json_dumps S response with
         | Return body =>
             Return (PyResponse {| content := body; content_type := "application/json";
                                   status_code := 200; headers := ∅ |})
         | Raise e => Raise e
         end,
         w, [Log DEBUG ("ajax_get_ips response: " +:+ repr_dict S response)])
    | _, _ => (Raise KeyError, w, [])
    end.
Proof.
  unfold AjaxGetIps, dict_getitem, log, emit, lift.
  unfold mbind, M_bind, mret, M_ret.
  destruct (session !! "ipv4") as [a|]; [|reflexivity].
  destruct (session !! "ipv6") as [b|]; [|reflexivity].
  cbn. destruct (json_dumps S _); reflexivity.
Qed.

(** X15: [AjaxGetIps] raises [KeyError] as soon as the session lacks the
    entry [ipv4] or the entry [ipv6], before anything is logged or
    serialized. *)
Theorem AjaxGetIps_missing_key (session : gmap string pyobj) w :
  session !! "ipv4" = None \/ session !! "ipv6" = None ->
  AjaxGetIps S session w = (Raise KeyError, w, []).
Proof.
  intros Hmiss. rewrite AjaxGetIps_run.
  destruct (session !! "ipv4") as [a|]; [|reflexivity].
  destruct Hmiss as [Hmiss|Hmiss]; [discriminate|]. rewrite Hmiss. reflexivity.
Qed.

(** X16: [AjaxGetIps] reads the entries [ipv4] and [ipv6] and nothing
    else: two sessions that agree on these two entries get the same
    answer, and the world is as it was. *)
Theorem AjaxGetIps_reads_two_entries (session session' : gmap string pyobj) w :
  session !! "ipv4" = session' !! "ipv4" ->
  session !! "ipv6" = session' !! "ipv6" ->
  AjaxGetIps S session w = AjaxGetIps S session' w
  /\ final (AjaxGetIps S session w) = w.
Proof.
  intros H4 H6. rewrite !AjaxGetIps_run, <- H4, <- H6.
  split; [reflexivity|].
  destruct (session !! "ipv4") as [a|]; [|reflexivity].
  destruct (session !! "ipv6") as [b|]; reflexivity.
Qed.

(** X17: reading back a detection.  When the store returns under a key what
    was saved under it, the session saved by [DetectIpView] under [secret]
    holds the detected address; [AjaxGetIps] on that session raises
    [KeyError] as long as the other family was never detected, and once the
    other family has an entry it answers as on the session made of the two
    addresses alone. *)
Theorem detect_then_read request secret w a k :
  (forall d w0, session_load S (session_save S (Some secret) d w0) (Some secret) = d) ->
  request.(META) !! "REMOTE_ADDR" = Some a ->
  env_check_ip E a = Some k ->
  session_load S (final (DetectIpView E S request (Some secret) w)) (Some secret)
    !! kind_key k = Some (ObjText a)
  /\ (forall k',
        k' <> k ->
        session_load S w (Some secret) !! kind_key k' = None ->
        outcome (AjaxGetIps S
                   (session_load S (final (DetectIpView E S request (Some secret) w))
                      (Some secret))
                   (final (DetectIpView E S request (Some secret) w)))
        = Raise KeyError)
  /\ (forall k' v,
        k' <> k ->
        session_load S w (Some secret) !! kind_key k' = Some v ->
        AjaxGetIps S
          (session_load S (final (DetectIpView E S request (Some secret) w))
             (Some secret))
          (final (DetectIpView E S request (Some secret) w))
        = AjaxGetIps S (<[kind_key k' := v]> {[ kind_key k := ObjText a ]})
            (final (DetectIpView E S request (Some secret) w))).
Proof.
  intros Hstore Ha Hk. rewrite (DetectIpView_run _ _ _ _ _ Ha Hk).
  unfold final. cbn [fst snd]. rewrite Hstore.
  destruct (detected_lookup k a (clock_now S w) (session_load S w (Some secret)))
    as (Haddr & _ & Hrest).
  assert (Hother : forall k', k' <> k ->
             detected k a (clock_now S w) (session_load S w (Some secret)) !! kind_key k'
             = session_load S w (Some secret) !! kind_key k').
  { intros k' Hne. apply Hrest; [|apply kind_key_timestamp_ne].
    intros Heq. apply Hne. exact (kind_key_inj _ _ Heq). }
  split; [exact Haddr|]. split.
  - intros k' Hne Hnone. rewrite AjaxGetIps_run. unfold outcome.
    specialize (Hother k' Hne). rewrite Hnone in Hother.
    destruct k, k'; try congruence; cbn [kind_key] in *; rewrite ?Haddr, Hother;
      reflexivity.
  - intros k' v Hne Hsome. rewrite !AjaxGetIps_run.
    specialize (Hother k' Hne). rewrite Hsome in Hother.
    destruct k, k'; try congruence; cbn [kind_key] in *; rewrite Haddr, Hother.
    + rewrite lookup_insert_ne by discriminate.
      rewrite lookup_singleton_eq, lookup_insert_eq. reflexivity.
    + rewrite lookup_insert_eq, lookup_insert_ne by discriminate.
      rewrite lookup_singleton_eq. reflexivity.
Qed.


End SessionProperties.


(** ** The further properties on the concrete worlds *)

(** The good update of the scenario called [poke] and the DNS primitive:
    its header decoded, its credentials were accepted. *)
Lemma NicUpdateView_acts_only_authenticated_witness :
  acted (trace (NicUpdateView Demo.env Demo.req_good Demo.w0)) = true
  /\ exists auth u p,
      Demo.req_good.(META) !! "HTTP_AUTHORIZATION" = Some auth
      /\ outcome (basic_authenticate Demo.env auth Demo.w0) = Return (Some (u, p))
      /\ outcome (check_api_auth Demo.env u p Demo.w0) = Return true
      /\ py_in (HTTP_USER_AGENT Demo.req_good) (env_BAD_AGENTS Demo.env) = false
      /\ length (env_filter_by_fqdn Demo.env Demo.w0 (target Demo.req_good u) None) = 1.
Proof.
  split; [vm_compute; reflexivity|].
  apply (NicUpdateView_acts_only_authenticated Demo.env Demo.req_good Demo.w0).
  left. vm_compute; reflexivity.
Defined.

(** The owner of [foo.example.com], logged in, with [myip=] empty. *)
Lemma AuthorizedNicUpdateView_acts_only_owned_witness :
  acted (trace (AuthorizedNicUpdateView Demo.env Demo.req_session_empty_myip Demo.w0))
  = true
  /\ exists hostname,
      QueryDict_get Demo.req_session_empty_myip.(GET) "hostname" = Some hostname
      /\ length (env_filter_by_fqdn Demo.env Demo.w0 hostname
                   (Some Demo.req_session_empty_myip.(user))) = 1
      /\ length (env_filter_by_fqdn Demo.env Demo.w0 hostname None) = 1.
Proof.
  split; [vm_compute; reflexivity|].
  apply (AuthorizedNicUpdateView_acts_only_owned Demo.env
           Demo.req_session_empty_myip Demo.w0).
  left. vm_compute; reflexivity.
Defined.

(** The answer [good 203.0.113.5] of the scenario. *)
Lemma NicUpdateView_vocabulary_witness :
  outcome (NicUpdateView Demo.env Demo.req_good Demo.w0)
  = Return (PyResponse (Response "good 203.0.113.5"))
  /\ ~ has_body "nohost" (PyResponse (Response "good 203.0.113.5")).
Proof.
  split; [vm_compute; reflexivity|].
  apply (NicUpdateView_vocabulary Demo.env Demo.req_good Demo.w0).
  vm_compute; reflexivity.
Defined.


(** The credentials of [foo.example.com] with [hostname=bar.example.com]:
    the record of [bar.example.com], which [bob] owns, is the one updated. *)
Lemma NicUpdateView_hostname_overrides_username_witness :
  (DemoSessions.req_other_host.(META) !! "HTTP_AUTHORIZATION" = Some Demo.foo_s3cr3t
   /\ outcome (basic_authenticate Demo.env Demo.foo_s3cr3t DemoSessions.w_two)
      = Return (Some ("foo.example.com", "s3cr3t"))
   /\ outcome (check_api_auth Demo.env "foo.example.com" "s3cr3t" DemoSessions.w_two)
      = Return true
   /\ py_in (HTTP_USER_AGENT DemoSessions.req_other_host) (env_BAD_AGENTS Demo.env)
      = false
   /\ QueryDict_get DemoSessions.req_other_host.(GET) "hostname"
      = Some "bar.example.com"
   /\ str (claimed DemoSessions.req_other_host) = Return "203.0.113.5"
   /\ env_filter_by_fqdn Demo.env DemoSessions.w_two "bar.example.com" None
      = [DemoSessions.bar]
   /\ env_check_ip Demo.env "203.0.113.5" = Some ipv4)
  /\ pokes (trace (NicUpdateView Demo.env DemoSessions.req_other_host DemoSessions.w_two))
     = [(DemoSessions.bar, ipv4)]
  /\ In (CallUpdate "bar.example.com" "203.0.113.5")
       (trace (NicUpdateView Demo.env DemoSessions.req_other_host DemoSessions.w_two)).
Proof.
  split; [repeat split; vm_compute; reflexivity|].
  destruct (NicUpdateView_hostname_overrides_username Demo.env
              DemoSessions.req_other_host DemoSessions.w_two Demo.foo_s3cr3t
              "foo.example.com" "s3cr3t" "bar.example.com" "203.0.113.5"
              DemoSessions.bar ipv4) as (Hpokes & Hin & _);
    try (vm_compute; reflexivity).
  split; assumption.
Defined.

(** [myip=not-an-address] with the credentials of the scenario. *)
Lemma NicUpdateView_invalid_address_witness :
  (DemoSessions.req_bad_myip.(META) !! "HTTP_AUTHORIZATION" = Some Demo.foo_s3cr3t
   /\ outcome (basic_authenticate Demo.env Demo.foo_s3cr3t Demo.w0)
      = Return (Some ("foo.example.com", "s3cr3t"))
   /\ outcome (check_api_auth Demo.env "foo.example.com" "s3cr3t" Demo.w0) = Return true
   /\ py_in (HTTP_USER_AGENT DemoSessions.req_bad_myip) (env_BAD_AGENTS Demo.env) = false
   /\ str (claimed DemoSessions.req_bad_myip) = Return "not-an-address"
   /\ length (env_filter_by_fqdn Demo.env Demo.w0
                (target DemoSessions.req_bad_myip "foo.example.com") None) = 1
   /\ env_check_ip Demo.env "not-an-address" = None)
  /\ outcome (NicUpdateView Demo.env DemoSessions.req_bad_myip Demo.w0)
     = Raise InvalidIPError
  /\ final (NicUpdateView Demo.env DemoSessions.req_bad_myip Demo.w0) = Demo.w0.
Proof.
  split; [repeat split; vm_compute; reflexivity|].
  destruct (NicUpdateView_invalid_address Demo.env DemoSessions.req_bad_myip Demo.w0
              Demo.foo_s3cr3t "foo.example.com" "s3cr3t" "not-an-address")
    as (Hout & Hfinal & _);
    try (vm_compute; reflexivity).
  split; assumption.
Defined.

(** [myip] starting with the code point 233. *)
Lemma NicUpdateView_non_ascii_myip_witness :
  (DemoSessions.req_non_ascii.(META) !! "HTTP_AUTHORIZATION" = Some Demo.foo_s3cr3t
   /\ outcome (basic_authenticate Demo.env Demo.foo_s3cr3t Demo.w0)
      = Return (Some ("foo.example.com", "s3cr3t"))
   /\ outcome (check_api_auth Demo.env "foo.example.com" "s3cr3t" Demo.w0) = Return true
   /\ py_in (HTTP_USER_AGENT DemoSessions.req_non_ascii) (env_BAD_AGENTS Demo.env)
      = false
   /\ QueryDict_get DemoSessions.req_non_ascii.(GET) "myip"
      = Some (String (ascii_of_nat 233) "1.2.3.4")
   /\ PyString.all_ascii7 (String (ascii_of_nat 233) "1.2.3.4") = false)
  /\ NicUpdateView Demo.env DemoSessions.req_non_ascii Demo.w0
     = (Raise UnicodeEncodeError, Demo.w0,
        trace (check_api_auth Demo.env "foo.example.com" "s3cr3t" Demo.w0)).
Proof.
  split; [repeat split; vm_compute; reflexivity|].
  apply (NicUpdateView_non_ascii_myip Demo.env DemoSessions.req_non_ascii Demo.w0
           Demo.foo_s3cr3t "foo.example.com" "s3cr3t"
           (String (ascii_of_nat 233) "1.2.3.4"));
    vm_compute; reflexivity.
Defined.

(** Neither [myip] nor [REMOTE_ADDR]: the classifier is asked about the
    text [None]. *)
Lemma NicUpdateView_no_address_at_all_witness :
  (DemoSessions.req_no_address.(META) !! "HTTP_AUTHORIZATION" = Some Demo.foo_s3cr3t
   /\ outcome (basic_authenticate Demo.env Demo.foo_s3cr3t Demo.w0)
      = Return (Some ("foo.example.com", "s3cr3t"))
   /\ outcome (check_api_auth Demo.env "foo.example.com" "s3cr3t" Demo.w0) = Return true
   /\ py_in (HTTP_USER_AGENT DemoSessions.req_no_address) (env_BAD_AGENTS Demo.env)
      = false
   /\ QueryDict_get DemoSessions.req_no_address.(GET) "myip" = None
   /\ DemoSessions.req_no_address.(META) !! "REMOTE_ADDR" = None
   /\ length (env_filter_by_fqdn Demo.env Demo.w0
                (target DemoSessions.req_no_address "foo.example.com") None) = 1)
  /\ In (CallCheckIp "None")
       (trace (NicUpdateView Demo.env DemoSessions.req_no_address Demo.w0)).
Proof.
  split; [repeat split; vm_compute; reflexivity|].
  destruct (NicUpdateView_no_address_at_all Demo.env DemoSessions.req_no_address Demo.w0
              Demo.foo_s3cr3t "foo.example.com" "s3cr3t") as (_ & Hin);
    try (vm_compute; reflexivity).
  apply Hin. vm_compute; reflexivity.
Defined.

(** [alice] owns [foo.example.com], [bob] does not. *)
Lemma check_session_auth_iff_witness :
  (length (env_filter_by_fqdn Demo.env Demo.w0 "foo.example.com" (Some Demo.alice)) = 1
   /\ length (env_filter_by_fqdn Demo.env Demo.w0 "foo.example.com" (Some Demo.bob)) <> 1)
  /\ outcome (check_session_auth Demo.env Demo.alice "foo.example.com" Demo.w0)
     = Return true
  /\ outcome (check_session_auth Demo.env Demo.bob "foo.example.com" Demo.w0)
     = Return false.
Proof.
  split; [split; [vm_compute; reflexivity | vm_compute; discriminate]|].
  split.
  - apply (check_session_auth_iff Demo.env Demo.alice "foo.example.com" Demo.w0).
    vm_compute; reflexivity.
  - destruct (check_session_auth_iff Demo.env Demo.bob "foo.example.com" Demo.w0)
      as (_ & Hfalse & _).
    apply Hfalse. vm_compute; discriminate.
Defined.

(** [dup.example.com] has two records. *)
Lemma duplicates_are_logged_witness :
  (str (PyUnicode "203.0.113.5") = Return "203.0.113.5"
   /\ 2 <= length (env_filter_by_fqdn Demo.env Demo.w0 "dup.example.com" None))
  /\ logs_duplicate "dup.example.com"
       (trace (check_api_auth Demo.env "dup.example.com" "pw" Demo.w0))
  /\ logs_duplicate "dup.example.com"
       (trace (_update Demo.env (Unicode "dup.example.com") (PyUnicode "203.0.113.5")
                 "ddclient" Demo.w0)).
Proof.
  assert (Htwo : 2 <= length (env_filter_by_fqdn Demo.env Demo.w0 "dup.example.com" None)).
  { apply Nat.leb_le. vm_compute; reflexivity. }
  split; [split; [reflexivity | exact Htwo]|].
  destruct (duplicates_are_logged Demo.env "dup.example.com" "pw" Demo.alice
              (Unicode "dup.example.com") (PyUnicode "203.0.113.5") "ddclient" Demo.w0
              "203.0.113.5") as (Hauth & _ & Hupdate); [reflexivity|].
  split; [apply Hauth | apply Hupdate]; exact Htwo.
Defined.

(** [BASIC], blanks around the payload, and a password with a colon. *)
Lemma basic_authenticate_decodes_witness :
  (~ In " "%char (list_ascii_of_string "BASIC")
   /\ PyString.lower "BASIC" = "basic"
   /\ env_b64decode Demo.env (PyString.strip DemoSessions.capitals_payload)
      = Some ("foo.example.com" +:+ ":" +:+ "s3:cr3t")
   /\ ~ In ":"%char (list_ascii_of_string "foo.example.com"))
  /\ basic_authenticate Demo.env ("BASIC" +:+ " " +:+ DemoSessions.capitals_payload)
       Demo.w0
     = (Return (Some ("foo.example.com", "s3:cr3t")), Demo.w0, []).
Proof.
  assert (Hscheme : ~ In " "%char (list_ascii_of_string "BASIC")).
  { cbn. intros Hin. repeat (destruct Hin as [Hin|Hin]; [discriminate|]). exact Hin. }
  assert (Huser : ~ In ":"%char (list_ascii_of_string "foo.example.com")).
  { cbn. intros Hin. repeat (destruct Hin as [Hin|Hin]; [discriminate|]). exact Hin. }
  split; [split; [exact Hscheme | split; [reflexivity | split;
          [vm_compute; reflexivity | exact Huser]]]|].
  apply (basic_authenticate_decodes Demo.env "BASIC" DemoSessions.capitals_payload
           "foo.example.com" "s3:cr3t" Demo.w0);
    [exact Hscheme | reflexivity | vm_compute; reflexivity | exact Huser].
Defined.

(** The header [Basic], without payload. *)
Lemma header_without_space_raises_witness :
  (DemoSessions.req_no_space.(META) !! "HTTP_AUTHORIZATION" = Some "Basic"
   /\ ~ In " "%char (list_ascii_of_string "Basic"))
  /\ NicUpdateView Demo.env DemoSessions.req_no_space Demo.w0
     = (Raise ValueError, Demo.w0, []).
Proof.
  assert (Hnot : ~ In " "%char (list_ascii_of_string "Basic")).
  { cbn. intros Hin. repeat (destruct Hin as [Hin|Hin]; [discriminate|]). exact Hin. }
  split; [split; [vm_compute; reflexivity | exact Hnot]|].
  apply (header_without_space_raises Demo.env DemoSessions.req_no_space Demo.w0 "Basic");
    [vm_compute; reflexivity | exact Hnot].
Defined.

(** A detection over IPv4 into the session [k3y]: the entry of the browser
    stays. *)
Lemma DetectIpView_writes_one_family_witness :
  (DemoSessions.req_v4.(META) !! "REMOTE_ADDR" = Some "198.51.100.7"
   /\ env_check_ip DemoSessions.env "198.51.100.7" = Some ipv4)
  /\ exists saved,
      final (DetectIpView DemoSessions.env DemoSessions.sess DemoSessions.req_v4
               (Some "k3y") DemoSessions.w0)
      = session_save DemoSessions.sess (Some "k3y") saved DemoSessions.w0
      /\ saved !! "ipv4" = Some (ObjText "198.51.100.7")
      /\ saved !! "ipv4_timestamp" = Some (ObjTime 1000)
      /\ saved !! "_auth_user_id" = Some (ObjText "1").
Proof.
  split; [split; vm_compute; reflexivity|].
  destruct (DetectIpView_writes_one_family DemoSessions.env DemoSessions.sess
              DemoSessions.req_v4 (Some "k3y") DemoSessions.w0 "198.51.100.7" ipv4)
    as (saved & Hfinal & _ & Haddr & Htime & Hrest & _);
    try (vm_compute; reflexivity).
  exists saved. split; [exact Hfinal|]. split; [exact Haddr|]. split; [exact Htime|].
  rewrite (Hrest "_auth_user_id"); [vm_compute; reflexivity | discriminate | discriminate].
Defined.

(** No connection address, and the address of a local socket. *)
Lemma DetectIpView_saves_nothing_on_failure_witness :
  (DemoSessions.req_no_remote.(META) !! "REMOTE_ADDR" = None
   /\ DemoSessions.req_unix.(META) !! "REMOTE_ADDR" = Some "unix:/run/web.sock"
   /\ env_check_ip DemoSessions.env "unix:/run/web.sock" = None)
  /\ DetectIpView DemoSessions.env DemoSessions.sess DemoSessions.req_no_remote
       (Some "k3y") DemoSessions.w0
     = (Raise KeyError, DemoSessions.w0, [])
  /\ DetectIpView DemoSessions.env DemoSessions.sess DemoSessions.req_unix
       (Some "k3y") DemoSessions.w0
     = (Raise InvalidIPError, DemoSessions.w0, [CallCheckIp "unix:/run/web.sock"]).
Proof.
  split; [repeat split; vm_compute; reflexivity|].
  split.
  - apply (DetectIpView_saves_nothing_on_failure DemoSessions.env DemoSessions.sess
             DemoSessions.req_no_remote (Some "k3y") DemoSessions.w0).
    vm_compute; reflexivity.
  - apply (DetectIpView_saves_nothing_on_failure DemoSessions.env DemoSessions.sess
             DemoSessions.req_unix (Some "k3y") DemoSessions.w0);
      vm_compute; reflexivity.
Defined.

(** A browser whose IPv4 address only was detected. *)
Lemma AjaxGetIps_missing_key_witness :
  (DemoSessions.browser_v4 !! "ipv4" = None \/ DemoSessions.browser_v4 !! "ipv6" = None)
  /\ AjaxGetIps DemoSessions.sess DemoSessions.browser_v4 DemoSessions.w0
     = (Raise KeyError, DemoSessions.w0, []).
Proof.
  assert (Hmiss : DemoSessions.browser_v4 !! "ipv4" = None
                  \/ DemoSessions.browser_v4 !! "ipv6" = None).
  { right. vm_compute; reflexivity. }
  split; [exact Hmiss|].
  apply (AjaxGetIps_missing_key DemoSessions.sess DemoSessions.browser_v4
           DemoSessions.w0 Hmiss).
Defined.

(** The two addresses alone, and beside timestamps and a login. *)
Lemma AjaxGetIps_reads_two_entries_witness :
  (DemoSessions.browser_both !! "ipv4" = DemoSessions.browser_both_more !! "ipv4"
   /\ DemoSessions.browser_both !! "ipv6" = DemoSessions.browser_both_more !! "ipv6")
  /\ AjaxGetIps DemoSessions.sess DemoSessions.browser_both DemoSessions.w0
     = AjaxGetIps DemoSessions.sess DemoSessions.browser_both_more DemoSessions.w0
  /\ final (AjaxGetIps DemoSessions.sess DemoSessions.browser_both DemoSessions.w0)
     = DemoSessions.w0.
Proof.
  split; [split; vm_compute; reflexivity|].
  apply (AjaxGetIps_reads_two_entries DemoSessions.sess DemoSessions.browser_both
           DemoSessions.browser_both_more DemoSessions.w0);
    vm_compute; reflexivity.
Defined.

(** The table of sessions returns what was saved; after the detection over
    IPv4 alone the read-back raises, and a detection over IPv6 on top of it
    is read back with both addresses. *)
Lemma detect_then_read_witness :
  ((forall d w0,
       session_load DemoSessions.sess
         (session_save DemoSessions.sess (Some "k3y") d w0) (Some "k3y") = d)
   /\ DemoSessions.req_v4.(META) !! "REMOTE_ADDR" = Some "198.51.100.7"
   /\ env_check_ip DemoSessions.env "198.51.100.7" = Some ipv4
   /\ session_load DemoSessions.sess DemoSessions.w0 (Some "k3y") !! kind_key ipv6 = None)
  /\ outcome (AjaxGetIps DemoSessions.sess
                (session_load DemoSessions.sess
                   (final (DetectIpView DemoSessions.env DemoSessions.sess
                             DemoSessions.req_v4 (Some "k3y") DemoSessions.w0))
                   (Some "k3y"))
                (final (DetectIpView DemoSessions.env DemoSessions.sess
                          DemoSessions.req_v4 (Some "k3y") DemoSessions.w0)))
     = Raise KeyError
  /\ (DemoSessions.req_v6.(META) !! "REMOTE_ADDR" = Some "2001:db8::7"
      /\ env_check_ip DemoSessions.env "2001:db8::7" = Some ipv6
      /\ session_load DemoSessions.sess DemoSessions.w_v4 (Some "k3y") !! kind_key ipv4
         = Some (ObjText "198.51.100.7"))
  /\ AjaxGetIps DemoSessions.sess
       (session_load DemoSessions.sess
          (final (DetectIpView DemoSessions.env DemoSessions.sess
                    DemoSessions.req_v6 (Some "k3y") DemoSessions.w_v4))
          (Some "k3y"))
       (final (DetectIpView DemoSessions.env DemoSessions.sess
                 DemoSessions.req_v6 (Some "k3y") DemoSessions.w_v4))
     = AjaxGetIps DemoSessions.sess
         (<[kind_key ipv4 := ObjText "198.51.100.7"]>
            {[ kind_key ipv6 := ObjText "2001:db8::7" ]})
         (final (DetectIpView DemoSessions.env DemoSessions.sess
                   DemoSessions.req_v6 (Some "k3y") DemoSessions.w_v4)).
Proof.
  assert (Hstore : forall d w0,
             session_load DemoSessions.sess
               (session_save DemoSessions.sess (Some "k3y") d w0) (Some "k3y") = d).
  { intros d w0. cbn. rewrite lookup_insert_eq. reflexivity. }
  assert (Hv4 : DemoSessions.req_v4.(META) !! "REMOTE_ADDR" = Some "198.51.100.7")
    by (vm_compute; reflexivity).
  assert (Hv6 : DemoSessions.req_v6.(META) !! "REMOTE_ADDR" = Some "2001:db8::7")
    by (vm_compute; reflexivity).
  assert (Hk4 : env_check_ip DemoSessions.env "198.51.100.7" = Some ipv4)
    by (vm_compute; reflexivity).
  assert (Hk6 : env_check_ip DemoSessions.env "2001:db8::7" = Some ipv6)
    by (vm_compute; reflexivity).
  split; [split; [exact Hstore | repeat split; vm_compute; reflexivity]|].
  split.
  { destruct (detect_then_read DemoSessions.env DemoSessions.sess DemoSessions.req_v4
                "k3y" DemoSessions.w0 "198.51.100.7" ipv4 Hstore Hv4 Hk4)
      as (_ & Hraise & _).
    apply (Hraise ipv6); [discriminate | vm_compute; reflexivity]. }
  split; [repeat split; vm_compute; reflexivity|].
  destruct (detect_then_read DemoSessions.env DemoSessions.sess DemoSessions.req_v6
              "k3y" DemoSessions.w_v4 "2001:db8::7" ipv6 Hstore Hv6 Hk6)
    as (_ & _ & Hboth).
  apply (Hboth ipv4 (ObjText "198.51.100.7")); [discriminate | vm_compute; reflexivity].
Defined.

